(** * goodscraper: a shallow embedding of [src/wordlists/goodscraper.py]

    The development follows the script function by function:
    [resolve_input], [extract_external_id], [extract_int_from_text],
    [extract_year_from_date], [compute_key_hash], [parse_shelf] and the
    pagination loop of [main].

    Modelling conventions.
    - A Python [str] is a Rocq [string]; every [ascii] is read as the code
      point of the same number, so the model covers the strings whose code
      points are below 256.  On that range the Unicode tables used by the
      script are small and written out in full ([isspace], [isdigit], the
      regular-expression class [\d]).
    - [None] is [None]; [str | None] is [option string].
    - A [dict] is an association list in insertion order, as Python keeps it.
    - Library calls that the script makes and that can raise are functions
      into [option]; the parsers of [urllib] and [bs4] are section variables.
      A page is known by the tree [bs4] builds from it, and that tree holds
      strings of the model: statements about pages are about pages whose
      text has code points below 256.
    - [while True] is a fuelled loop; the theorems give the fuel. *)

From Stdlib Require Import ZArith List Bool Ascii String DecimalString Lia.
Import ListNotations.
Open Scope string_scope.
Open Scope Z_scope.

(* ------------------------------------------------------------------ *)
(** ** Python strings *)

Module PyStr.

Definition ord (c : ascii) : Z := Z.of_N (N_of_ascii c).

(** [str.isspace] on one character: the characters of bidirectional type
    WS, B or S, or of category Zs.  Below 256 these are TAB..CR, FS..US,
    SPACE, NEL and NBSP. *)
Definition isspace (c : ascii) : bool :=
  let n := ord c in
  ((9 <=? n) && (n <=? 13)) || ((28 <=? n) && (n <=? 32))
  || (n =? 133) || (n =? 160).

(** The class [\d] of [re] on [str] patterns, and the digits accepted by
    [int]: category Nd, which below 256 is '0'..'9'. *)
Definition isdecimal (c : ascii) : bool :=
  let n := ord c in (48 <=? n) && (n <=? 57).

(** [str.isdigit] on one character: Numeric_Type Digit or Decimal.  Below
    256 this adds the superscripts two, three and one. *)
Definition isdigit_char (c : ascii) : bool :=
  let n := ord c in
  isdecimal c || (n =? 178) || (n =? 179) || (n =? 185).

Fixpoint all_chars (p : ascii -> bool) (s : string) : bool :=
  match s with
  | EmptyString => true
  | String c s' => p c && all_chars p s'
  end.

(** [str.isdigit]: at least one character and all of them digits. *)
Definition isdigit (s : string) : bool :=
  match s with
  | EmptyString => false
  | _ => all_chars isdigit_char s
  end.

(** [bool(s)] for a string. *)
Definition truthy (s : string) : bool :=
  match s with EmptyString => false | _ => true end.

(** [x or ""] for [x : str | None]. *)
Definition or_empty (x : option string) : string :=
  match x with
  | Some s => if truthy s then s else ""
  | None => ""
  end.

(** [s or None]. *)
Definition or_None (s : string) : option string :=
  if truthy s then Some s else None.

Fixpoint lstrip_by (sp : ascii -> bool) (s : string) : string :=
  match s with
  | String c s' => if sp c then lstrip_by sp s' else s
  | EmptyString => EmptyString
  end.

(** Removes the longest suffix made of [sp] characters. *)
Fixpoint rstrip_by (sp : ascii -> bool) (s : string) : string :=
  match s with
  | EmptyString => EmptyString
  | String c s' =>
      match rstrip_by sp s' with
      | EmptyString => if sp c then EmptyString else String c EmptyString
      | r => String c r
      end
  end.

(** [str.strip] with no argument. *)
Definition strip (s : string) : string :=
  rstrip_by isspace (lstrip_by isspace s).

(** [sep.join(parts)]. *)
Fixpoint join (sep : string) (parts : list string) : string :=
  match parts with
  | [] => ""
  | [p] => p
  | p :: rest => p ++ sep ++ join sep rest
  end.

(** [s.startswith(p)]. *)
Definition startswith (s p : string) : bool := prefix p s.

(** [s.replace(",", "")]: every occurrence of one character removed. *)
Fixpoint remove_char (x : ascii) (s : string) : string :=
  match s with
  | EmptyString => EmptyString
  | String c s' =>
      if Ascii.eqb c x then remove_char x s' else String c (remove_char x s')
  end.

(** [p in s] for a one-character [p]. *)
Fixpoint contains_char (x : ascii) (s : string) : bool :=
  match s with
  | EmptyString => false
  | String c s' => Ascii.eqb c x || contains_char x s'
  end.

(** The digit part of an integer literal: groups of decimal digits with
    single underscores between them.  [prev] tells whether the previous
    character was a digit. *)
Fixpoint int_digits (prev : bool) (acc : Z) (s : string) : option Z :=
  match s with
  | EmptyString => if prev then Some acc else None
  | String c s' =>
      if isdecimal c then int_digits true (10 * acc + (ord c - 48)) s'
      else if Ascii.eqb c "_" && prev then
        match s' with
        | String d _ => if isdecimal d then int_digits false acc s' else None
        | EmptyString => None
        end
      else None
  end.

(** The whitespace [int] skips around a literal: the ASCII white space
    and, of the other code points, the Unicode spaces (NEL and NBSP below
    256).  FS..US are [isspace] but are not skipped. *)
Definition int_space (c : ascii) : bool :=
  let n := ord c in
  ((9 <=? n) && (n <=? 13)) || (n =? 32) || (n =? 133) || (n =? 160).

Fixpoint count_chars (p : ascii -> bool) (s : string) : Z :=
  match s with
  | EmptyString => 0
  | String c s' => (if p c then 1 else 0) + count_chars p s'
  end.

(** [sys.get_int_max_str_digits()], at its default. *)
Definition int_max_str_digits : Z := 4300.

(** [int(s)] in base ten; [None] is [ValueError].  Surrounding whitespace
    is skipped, one sign is allowed, then the digits, no more of them than
    [int_max_str_digits]. *)
Definition int (s : string) : option Z :=
  let lit := rstrip_by int_space (lstrip_by int_space s) in
  if int_max_str_digits <? count_chars isdecimal lit then None
  else
    match lit with
    | String "-" d => option_map Z.opp (int_digits false 0 d)
    | String "+" d => int_digits false 0 d
    | d => int_digits false 0 d
    end.

(** [str(n)] for an integer. *)
Definition str_of_Z (n : Z) : string := NilZero.string_of_int (Z.to_int n).

End PyStr.

(* ------------------------------------------------------------------ *)
(** ** [str.encode("utf-8")] and [hashlib.sha256(...).hexdigest()] *)

Module Utf8.
Local Open Scope list_scope.

(** One code point below 256: one byte below 128, two bytes from 128 on. *)
Definition encode_char (c : ascii) : list Z :=
  let n := PyStr.ord c in
  if n <? 128 then [n]
  else [Z.lor 192 (Z.shiftr n 6); Z.lor 128 (Z.land n 63)].

Fixpoint encode (s : string) : list Z :=
  match s with
  | EmptyString => []
  | String c s' => encode_char c ++ encode s'
  end.

End Utf8.

Module Sha256.
Local Open Scope list_scope.

Definition w32 (x : Z) : Z := Z.land x 0xffffffff.
Definition add32 (x y : Z) : Z := w32 (x + y).
Definition rotr (n x : Z) : Z :=
  Z.lor (Z.shiftr x n) (w32 (Z.shiftl x (32 - n))).
Definition shr (n x : Z) : Z := Z.shiftr x n.
Definition xor3 (x y z : Z) : Z := Z.lxor (Z.lxor x y) z.

Definition Ch (x y z : Z) : Z :=
  Z.lxor (Z.land x y) (Z.land (Z.lxor x 0xffffffff) z).
Definition Maj (x y z : Z) : Z :=
  xor3 (Z.land x y) (Z.land x z) (Z.land y z).
Definition Sigma0 (x : Z) : Z := xor3 (rotr 2 x) (rotr 13 x) (rotr 22 x).
Definition Sigma1 (x : Z) : Z := xor3 (rotr 6 x) (rotr 11 x) (rotr 25 x).
Definition sigma0 (x : Z) : Z := xor3 (rotr 7 x) (rotr 18 x) (shr 3 x).
Definition sigma1 (x : Z) : Z := xor3 (rotr 17 x) (rotr 19 x) (shr 10 x).

(** The constants are taken from the primes, as the standard defines
    them: the first 32 bits of the fractional parts of the cube roots of the
    first 64 primes, and of the square roots of the first 8. *)
Definition is_prime (n : nat) : bool :=
  forallb (fun d => negb (Nat.eqb (Nat.modulo n d) 0)) (seq 2 (n - 2)).

Definition primes : list Z :=
  Eval vm_compute in map Z.of_nat (filter is_prime (seq 2 310)).

(** The integer cube root, one bit after the other from the top. *)
Definition cube_root (n : Z) : Z :=
  fold_left (fun r b =>
               let r' := r + Z.shiftl 1 (Z.of_nat b) in
               if r' * r' * r' <=? n then r' else r)
            (rev (seq 0 40)) 0.

Definition K : list Z :=
  Eval vm_compute in map (fun p => w32 (cube_root (Z.shiftl p 96))) primes.

Definition H0 : list Z :=
  Eval vm_compute in
    map (fun p => w32 (Z.sqrt (Z.shiftl p 64))) (firstn 8 primes).

(** Big-endian bytes of the low [8 * n] bits of [x]. *)
Fixpoint be_bytes (n : nat) (x : Z) : list Z :=
  match n with
  | O => []
  | S n' => Z.land (Z.shiftr x (8 * Z.of_nat n')) 255 :: be_bytes n' x
  end.

(** The message, the byte 0x80, zero bytes up to 56 modulo 64, and the
    length in bits on eight bytes. *)
Definition pad (msg : list Z) : list Z :=
  let len := Z.of_nat (List.length msg) in
  let zeros := Z.to_nat ((55 - len) mod 64) in
  msg ++ [128] ++ repeat 0 zeros ++ be_bytes 8 (8 * len).

(** Big-endian 32-bit words of a byte string (whole words only). *)
Fixpoint words (fuel : nat) (bs : list Z) : list Z :=
  match fuel, bs with
  | S f, a :: b :: c :: d :: rest =>
      (Z.shiftl a 24 + Z.shiftl b 16 + Z.shiftl c 8 + d) :: words f rest
  | _, _ => []
  end.

Fixpoint chunks (fuel : nat) (ws : list Z) : list (list Z) :=
  match fuel, ws with
  | S f, _ :: _ => firstn 16 ws :: chunks f (skipn 16 ws)
  | _, _ => []
  end.

(** The next word of the message schedule from the last sixteen. *)
Definition next_word (win : list Z) : Z :=
  add32 (add32 (sigma1 (nth 14 win 0)) (nth 9 win 0))
        (add32 (sigma0 (nth 1 win 0)) (nth 0 win 0)).

Definition round (st : list Z * list Z) (k : Z) : list Z * list Z :=
  let '(v, win) := st in
  match v with
  | [a; b; c; d; e; f; g; h] =>
      let w := nth 0 win 0 in
      let t1 := add32 (add32 (add32 h (Sigma1 e)) (add32 (Ch e f g) k)) w in
      let t2 := add32 (Sigma0 a) (Maj a b c) in
      ([add32 t1 t2; a; b; c; add32 d t1; e; f; g],
       tl win ++ [next_word win])
  | _ => st
  end.

Definition compress (h : list Z) (block : list Z) : list Z :=
  let '(v, _) := fold_left round K (h, block) in
  map (fun p => add32 (fst p) (snd p)) (combine h v).

Definition digest (msg : list Z) : list Z :=
  let bs := pad msg in
  let ws := words (List.length bs) bs in
  let hs := fold_left compress (chunks (List.length ws) ws) H0 in
  flat_map (be_bytes 4) hs.

Definition hex_digit (n : Z) : ascii :=
  ascii_of_N (Z.to_N (if n <? 10 then 48 + n else 87 + n)).

Fixpoint hex (bs : list Z) : string :=
  match bs with
  | [] => ""
  | b :: rest =>
      String (hex_digit (Z.shiftr b 4)) (String (hex_digit (Z.land b 15)) (hex rest))
  end.

(** [hashlib.sha256(msg).hexdigest()]. *)
Definition hexdigest (msg : list Z) : string := hex (digest msg).

End Sha256.


(* ------------------------------------------------------------------ *)
(** ** The regular expressions of the script *)

Module Re.

Fixpoint take_while (p : ascii -> bool) (s : string) : string :=
  match s with
  | String c s' => if p c then String c (take_while p s') else EmptyString
  | EmptyString => EmptyString
  end.

Fixpoint drop (n : nat) (s : string) : string :=
  match n, s with
  | S n', String _ s' => drop n' s'
  | _, _ => s
  end.

(** [re.search(r"(\d{4})", text)]: group 1 of the leftmost match, that is
    the first four consecutive decimal digits. *)
Fixpoint search_d4 (text : string) : option string :=
  match text with
  | String a ((String b (String c (String d _))) as rest) =>
      if PyStr.isdecimal a && PyStr.isdecimal b
         && PyStr.isdecimal c && PyStr.isdecimal d
      then Some (String a (String b (String c (String d EmptyString))))
      else search_d4 rest
  | _ => None
  end.

(** [re.findall(r"\d+", text)]: the maximal runs of decimal digits, from
    left to right. *)
Fixpoint findall_digits (text : string) : list string :=
  match text with
  | EmptyString => []
  | String c rest =>
      if PyStr.isdecimal c then
        let run := String c (take_while PyStr.isdecimal rest) in
        match rest with
        | String d _ =>
            if PyStr.isdecimal d then
              match findall_digits rest with
              | _ :: runs => run :: runs
              | [] => [run]
              end
            else run :: findall_digits rest
        | EmptyString => [run]
        end
      else findall_digits rest
  end.

(** [re.search(r"/book/show/(\d+)", path)]: group 1 of the leftmost match,
    the whole digit run that follows the first [/book/show/] that has one. *)
Fixpoint search_book_show (path : string) : option string :=
  match path with
  | EmptyString => None
  | String _ rest =>
      if prefix "/book/show/" path then
        let ds := take_while PyStr.isdecimal (drop 11 path) in
        if PyStr.truthy ds then Some ds else search_book_show rest
      else search_book_show rest
  end.

End Re.


(* ------------------------------------------------------------------ *)
(** ** Exceptions and dictionaries *)

Inductive exn : Type :=
| ValueError      (* urlparse and urljoin on a malformed URL *)
| KeyError
| LoadError       (* whatever load_html raises: SystemExit, RuntimeError, OSError *)
| ParserRejectedMarkup.   (* BeautifulSoup on markup html.parser refuses *)

Inductive result (A : Type) : Type :=
| Ok (a : A)
| Raise (e : exn).
Arguments Ok {A} a.
Arguments Raise {A} e.

Definition bind {A B : Type} (r : result A) (k : A -> result B) : result B :=
  match r with
  | Ok a => k a
  | Raise e => Raise e
  end.

Notation "x <- r ;; k" := (bind r (fun x => k))
  (at level 61, r at next level, right associativity).

Definition or_raise {A : Type} (e : exn) (o : option A) : result A :=
  match o with
  | Some a => Ok a
  | None => Raise e
  end.

Module Dict.
Local Open Scope list_scope.

Section WithValue.
Context {V : Type}.

(** A [dict] with string keys: its items in insertion order. *)
Definition t : Type := list (string * V).

Fixpoint get (d : t) (k : string) : option V :=
  match d with
  | [] => None
  | (k', v) :: d' => if String.eqb k' k then Some v else get d' k
  end.

(** [d[k] = v]: the value is replaced where the key already is, a new key
    goes to the end. *)
Fixpoint set (d : t) (k : string) (v : V) : t :=
  match d with
  | [] => [(k, v)]
  | (k', v') :: d' =>
      if String.eqb k' k then (k', v) :: d' else (k', v') :: set d' k v
  end.

(** [d.setdefault(k, v)], for its effect on [d]. *)
Definition setdefault (d : t) (k : string) (v : V) : t :=
  match get d k with
  | Some _ => d
  | None => set d k v
  end.

(** [dict(pairs)]: later pairs overwrite earlier ones. *)
Definition of_pairs (pairs : list (string * V)) : t :=
  fold_left (fun d kv => set d (fst kv) (snd kv)) pairs [].

Definition keys (d : t) : list string := map fst d.

End WithValue.
End Dict.

(* ------------------------------------------------------------------ *)
(** ** The parse tree of [bs4] *)

Module Soup.
Local Open Scope list_scope.

(** What [BeautifulSoup(html, "html.parser")] builds.  A tag carries its
    name, the value of its multi-valued [class] attribute (a list of
    tokens, [None] without the attribute), its other attributes and its
    contents.  The [BeautifulSoup] object itself is a tag.
    [NavigableString] is a string that [get_text] reads (text, CDATA);
    [Comment] stands for the strings it leaves out (comments, doctype,
    declarations). *)
#[warnings="-register-all"]
Inductive node : Type :=
| NavigableString (s : string)
| Comment (s : string)
| Tag (name : string) (class : option (list string))
      (attrs : list (string * string)) (contents : list node).

(** [tag.descendants]: the nodes below a tag, in document order. *)
Fixpoint descendants (n : node) : list node :=
  match n with
  | Tag _ _ _ cs =>
      (fix below (l : list node) : list node :=
         match l with
         | [] => []
         | c :: l' => c :: descendants c ++ below l'
         end) cs
  | _ => []
  end.

Definition named (name : string) (n : node) : bool :=
  match n with
  | Tag nm _ _ _ => String.eqb nm name
  | _ => false
  end.

(** The filter [class_=v]: one of the tokens is [v], or the tokens joined
    by a space are [v]. *)
Definition has_class (v : string) (n : node) : bool :=
  match n with
  | Tag _ (Some toks) _ _ =>
      existsb (String.eqb v) toks || String.eqb v (PyStr.join " " toks)
  | _ => false
  end.

(** [tag.get(k)]. *)
Definition get (n : node) (k : string) : option string :=
  match n with
  | Tag _ _ attrs _ => Dict.get attrs k
  | _ => None
  end.

(** [tag[k]], used where the attribute is known to be there. *)
Definition getitem (n : node) (k : string) : string :=
  match get n k with Some v => v | None => "" end.

(** The filter [k=True]: the attribute is there. *)
Definition has_attr (k : string) (n : node) : bool :=
  match get n k with Some _ => true | None => false end.

(** [tag.find_all(name, ...)] with the remaining filters as [flt]. *)
Definition find_all (n : node) (name : string) (flt : node -> bool) : list node :=
  filter (fun d => named name d && flt d) (descendants n).

(** [tag.find(name, ...)]. *)
Definition find (n : node) (name : string) (flt : node -> bool) : option node :=
  hd_error (find_all n name flt).

Definition any (_ : node) : bool := true.

(** The strings [get_text(..., strip=True)] joins: every text node below
    the tag, stripped, the empty ones left out. *)
Definition stripped_strings (n : node) : list string :=
  flat_map (fun d =>
              match d with
              | NavigableString s =>
                  let s' := PyStr.strip s in
                  if PyStr.truthy s' then [s'] else []
              | _ => []
              end) (descendants n).

(** [tag.get_text(sep, strip=True)]. *)
Definition get_text (sep : string) (n : node) : string :=
  PyStr.join sep (stripped_strings n).

End Soup.

(* ------------------------------------------------------------------ *)
(** ** The script *)

Import Soup.

Definition GOODREADS_BASE : string := "https://www.goodreads.com".

(** A JSON value of the output: the values the script puts in a book. *)
Inductive json : Type :=
| JNull
| JStr (s : string)
| JInt (n : Z).

Definition json_str (o : option string) : json :=
  match o with Some s => JStr s | None => JNull end.

Definition json_int (o : option Z) : json :=
  match o with Some n => JInt n | None => JNull end.

(** One element of the list [parse_shelf] returns: a [dict]. *)
Definition book : Type := Dict.t (V := json).

(** [needle in s]. *)
Fixpoint contains (needle s : string) : bool :=
  prefix needle s
  || match s with
     | EmptyString => false
     | String _ s' => contains needle s'
     end.

(** The local variables of one turn of the loop of [parse_shelf], at the
    point where [book_obj] is built. *)
Record row_locals : Type := {
  title : string;
  book_href : string;
  book_url : string;
  external_id : option string;
  authors : option string;
  cover_url : option string;
  page_count : option Z;
  published_year : option Z;
  source : string;
  key_hash : string
}.

Definition extract_int_from_text (text : option string) : option Z :=
  match text with
  | None => None
  | Some t =>
      if negb (PyStr.truthy t) then None
      else
        match Re.findall_digits (PyStr.remove_char "," t) with
        | [] => None
        | d0 :: _ =>
            match PyStr.int d0 with
            | Some n => Some n
            | None => None            (* except ValueError *)
            end
        end
  end.

Definition extract_year_from_date (text : option string) : option Z :=
  match text with
  | None => None
  | Some t =>
      if negb (PyStr.truthy t) then None
      else
        match Re.search_d4 t with
        | Some g =>
            match PyStr.int g with
            | Some n => Some n
            | None => None            (* except ValueError *)
            end
        | None => None
        end
  end.

(** [raw.encode("utf-8")] raises [UnicodeEncodeError] on a lone surrogate
    only; the strings of the model hold code points below 256, which all
    have an encoding, so here the function is total. *)
Definition compute_key_hash (source external_id title authors : option string)
  : string :=
  let parts := [PyStr.or_empty source; PyStr.or_empty external_id;
                PyStr.or_empty title; PyStr.or_empty authors]%list in
  let raw := PyStr.join "|" (map PyStr.strip parts) in
  Sha256.hexdigest (Utf8.encode raw).

Section Script.

(** [os.path.exists]. *)
Variable path_exists : string -> bool.
(** [urlparse(u).path]; [None] when [urlparse] raises [ValueError]. *)
Variable urlparse_path : string -> option string.
(** [urljoin(base, u)]; [None] when it raises [ValueError]. *)
Variable urljoin : string -> string -> option string.
(** [urlparse(u).query]; [None] when [urlparse] raises [ValueError]. *)
Variable urlparse_query : string -> option string.
(** [urlunparse(urlparse(u)._replace(query=q))]. *)
Variable replace_query : string -> string -> string.
(** [parse_qsl(q)] and [urlencode(d)] on the items of [d]. *)
Variable parse_qsl : string -> list (string * string).
Variable urlencode : list (string * string) -> string.
(** [load_html]; [None] when it raises. *)
Variable load_html : string -> option string.
(** [BeautifulSoup(html, "html.parser")]; [None] when it raises
    [ParserRejectedMarkup].  [Some soup] says that the parser accepts the
    markup and that the tree it builds is [soup]; the strings of a tree of
    the model have code points below 256, so a page whose text holds any
    other character (such as a lone surrogate written as a numeric
    character reference, which [compute_key_hash] could not encode) is not
    described by a [Some soup]. *)
Variable BeautifulSoup : string -> option node.

Definition resolve_input (arg : string) : string :=
  if path_exists arg then arg
  else if PyStr.isdigit arg then
    GOODREADS_BASE ++ "/review/list/" ++ arg ++ "?shelf=read"
  else if PyStr.startswith arg "http://" || PyStr.startswith arg "https://"
  then arg
  else arg.

Definition extract_external_id (book_href : string) : result (option string) :=
  if negb (PyStr.truthy book_href) then Ok None
  else
    path <- or_raise ValueError (urlparse_path book_href) ;;
    Ok (Re.search_book_show path).

(** The author part of the loop body. *)
Definition row_authors (row : node) : option string :=
  match find row "td" (has_class "field author") with
  | None => None
  | Some author_td =>
      match find_all author_td "a" any with
      | [] => PyStr.or_None (get_text "" author_td)
      | author_links => Some (PyStr.join ", " (map (get_text "") author_links))
      end
  end.

Definition row_cover_url (row : node) : option string :=
  match find row "td" (has_class "field cover") with
  | None => None
  | Some cover_td =>
      match find cover_td "img" any with
      | None => None
      | Some img =>
          match get img "src" with
          | Some src => PyStr.or_None src
          | None => None
          end
      end
  end.

Definition row_page_count (row : node) : option Z :=
  match find row "td" (has_class "field num_pages") with
  | None => None
  | Some pages_td => extract_int_from_text (Some (get_text " " pages_td))
  end.

Definition row_published_year (row : node) : option Z :=
  match find row "td" (has_class "field date_pub") with
  | None => None
  | Some date_pub_td => extract_year_from_date (Some (get_text " " date_pub_td))
  end.

(** The body of the loop of [parse_shelf] up to [book_obj]: [Ok None] is
    [continue]. *)
Definition row_values (shelf_url : option string) (row : node)
  : result (option row_locals) :=
  match find row "td" (has_class "field title") with
  | None => Ok None
  | Some title_td =>
      match find title_td "a" (has_attr "href") with
      | None => Ok None
      | Some title_link =>
          let title := get_text "" title_link in
          let book_href := getitem title_link "href" in
          book_url <-
            (if PyStr.truthy (PyStr.or_empty shelf_url)
                && negb (PyStr.startswith book_href "http")
             then or_raise ValueError (urljoin GOODREADS_BASE book_href)
             else Ok book_href) ;;
          external_id <- extract_external_id book_href ;;
          let authors := row_authors row in
          let source := "OTHER" in
          Ok (Some {| title := title;
                      book_href := book_href;
                      book_url := book_url;
                      external_id := external_id;
                      authors := authors;
                      cover_url := row_cover_url row;
                      page_count := row_page_count row;
                      published_year := row_published_year row;
                      source := source;
                      key_hash := compute_key_hash (Some source) external_id
                                                   (Some title) authors |})
      end
  end.

(** The dictionary literal [book_obj]; the entries the script has
    commented out are not in it. *)
Definition book_obj (v : row_locals) : book :=
  [("source", JStr (source v));
   ("title", JStr (title v));
   ("authors", json_str (authors v));
   ("pageCount", json_int (page_count v));
   ("coverUrl", json_str (cover_url v))]%list.

(** The loop over the rows: [books] is the list built so far. *)
Fixpoint parse_rows (shelf_url : option string) (rows : list node)
         (books : list book) : result (list book) :=
  match rows with
  | nil => Ok books
  | cons row rows' =>
      v <- row_values shelf_url row ;;
      match v with
      | None => parse_rows shelf_url rows' books
      | Some v => parse_rows shelf_url rows' (books ++ [book_obj v])%list
      end
  end.

Definition parse_shelf (html : string) (shelf_url : option string)
  : result (list book) :=
  soup <- or_raise ParserRejectedMarkup (BeautifulSoup html) ;;
  parse_rows shelf_url (find_all soup "tr" (has_class "bookalike")) nil.

(** *** The pagination loop of [main] *)

(** The dictionary [qs] of one turn, from [parse_qsl(parsed.query)]. *)
Definition page_qs (pairs : list (string * string)) (page : Z)
  : Dict.t (V := string) :=
  Dict.set (Dict.setdefault (Dict.of_pairs pairs) "per_page" "10")
           "page" (PyStr.str_of_Z page).

(** [qs] and [page_url] for a page of the resolved URL. *)
Definition page_request (resolved : string) (page : Z)
  : result (Dict.t (V := string) * string) :=
  query <- or_raise ValueError (urlparse_query resolved) ;;
  let qs := page_qs (parse_qsl query) page in
  Ok (qs, replace_query resolved (urlencode qs)).

(** The variables of the loop, and the URLs handed to [load_html] so far
    (a ghost field: the script keeps no such list). *)
Record loop_state : Type := {
  page : Z;
  all_books : list book;
  fetched : list string
}.

Inductive control : Type := Break | Continue.

(** One turn of [while True]. *)
Definition loop_body (resolved : string) (st : loop_state)
  : result (control * loop_state) :=
  rq <- page_request resolved (page st) ;;
  let qs := fst rq in
  let page_url := snd rq in
  html <- or_raise LoadError (load_html page_url) ;;
  page_books <- parse_shelf html (Some page_url) ;;
  let log := (fetched st ++ [page_url])%list in
  match page_books with
  | nil =>
      Ok (Break, {| page := page st; all_books := all_books st; fetched := log |})
  | _ =>
      let books := (all_books st ++ page_books)%list in
      v <- or_raise KeyError (Dict.get qs "per_page") ;;
      match PyStr.int v with
      | None =>                       (* except ValueError: per_page = None *)
          Ok (Break, {| page := page st; all_books := books; fetched := log |})
      | Some per_page =>
          if Z.of_nat (List.length page_books) <? per_page then
            Ok (Break, {| page := page st; all_books := books; fetched := log |})
          else
            Ok (Continue,
                {| page := page st + 1; all_books := books; fetched := log |})
      end
  end.

(** [while True] with fuel: [None] when the fuel runs out first. *)
Fixpoint main_loop (fuel : nat) (resolved : string) (st : loop_state)
  : option (result loop_state) :=
  match fuel with
  | O => None
  | S fuel' =>
      match loop_body resolved st with
      | Raise e => Some (Raise e)
      | Ok (Break, st') => Some (Ok st')
      | Ok (Continue, st') => main_loop fuel' resolved st'
      end
  end.

Definition loop_start : loop_state :=
  {| page := 1; all_books := nil; fetched := nil |}.

Definition parse_once (resolved : string) : result (list book) :=
  html <- or_raise LoadError (load_html resolved) ;;
  parse_shelf html (Some resolved).

(** [main], up to the list [books] handed to [json.dump]. *)
Definition main (shelf : string) (fuel : nat) : option (result (list book)) :=
  let resolved := resolve_input shelf in
  if path_exists resolved then Some (parse_once resolved)
  else if contains "goodreads.com/review/list" resolved then
    match main_loop fuel resolved loop_start with
    | Some (Ok st) => Some (Ok (all_books st))
    | Some (Raise e) => Some (Raise e)
    | None => None
    end
  else Some (parse_once resolved).

(** *** Readings of the script used to state its properties *)

(** The hyperlink of the title cell of a row, when both are there. *)
Definition title_link (row : node) : option node :=
  match find row "td" (has_class "field title") with
  | Some title_td => find title_td "a" (has_attr "href")
  | None => None
  end.

Definition has_title_link (row : node) : bool :=
  match title_link row with Some _ => true | None => false end.

Definition is_some {A : Type} (o : option A) : bool :=
  match o with Some _ => true | None => false end.

(** The URL library accepts the href: neither [urljoin] (called when a
    shelf URL is given and the href does not start with http) nor
    [urlparse] (called on a non-empty href) raises. *)
Definition href_parses (shelf_url : option string) (href : string) : bool :=
  (if PyStr.truthy (PyStr.or_empty shelf_url)
      && negb (PyStr.startswith href "http")
   then is_some (urljoin GOODREADS_BASE href) else true)
  && (if PyStr.truthy href then is_some (urlparse_path href) else true).

(** A well-formed entry row: a title cell with a hyperlink whose href the
    URL library accepts. *)
Definition well_formed (shelf_url : option string) (row : node) : bool :=
  match title_link row with
  | Some link => href_parses shelf_url (getitem link "href")
  | None => false
  end.

(** The rows of a page. *)
Definition entry_rows (soup : node) : list node :=
  find_all soup "tr" (has_class "bookalike").

(** The URL of a page, once [urlparse] has given the query [query]. *)
Definition page_url (resolved query : string) (page : Z) : string :=
  replace_query resolved (urlencode (page_qs (parse_qsl query) page)).

(** The records of a page: the request, [load_html] and [parse_shelf]. *)
Definition fetch_page (resolved : string) (page : Z) : result (list book) :=
  rq <- page_request resolved page ;;
  html <- or_raise LoadError (load_html (snd rq)) ;;
  parse_shelf html (Some (snd rq)).

End Script.

(** The value of the last pair with key [k], as [dict(pairs)] keeps it. *)
Definition last_value (pairs : list (string * string)) (k : string)
  : option string :=
  Dict.get (rev pairs) k.

(** The text [int] is applied to at the end of a turn: the per_page of the
    URL, or the default. *)
Definition per_page_text (pairs : list (string * string)) : string :=
  match last_value pairs "per_page" with
  | Some v => v
  | None => "10"
  end.

(** The values a list of query parameters gives to a key, in order. *)
Definition values_of (k : string) (pairs : list (string * string))
  : list string :=
  map snd (filter (fun kv => String.eqb (fst kv) k) pairs).

Definition no_decimal (c : ascii) : bool := negb (PyStr.isdecimal c).

(** The value of a decimal digit. *)
Definition digit_value (c : ascii) : Z := PyStr.ord c - 48.

(** A raw input made of decimal digits only, as the specification has it. *)
Definition all_decimal_digits (raw : string) : bool :=
  PyStr.truthy raw && PyStr.all_chars PyStr.isdecimal raw.

(** The shelf URL of a user id. *)
Definition shelf_url_of (id : string) : string :=
  GOODREADS_BASE ++ "/review/list/" ++ id ++ "?shelf=read".

(* ------------------------------------------------------------------ *)
(** ** Stand-ins for the libraries, for the worked examples

    They agree with [urllib] on the URLs of the examples: no fragment, no
    parameters, no percent escapes, no '+'. *)

Module Plain.

(** [urlparse(u).path] of a URL that is only a path. *)
Definition urlparse_path (u : string) : option string := Some u.

(** [urljoin(base, u)] for a base without path and [u] an absolute path. *)
Definition urljoin (base u : string) : option string := Some (base ++ u).

Fixpoint before (x : ascii) (s : string) : string :=
  match s with
  | EmptyString => EmptyString
  | String c s' => if Ascii.eqb c x then EmptyString else String c (before x s')
  end.

Fixpoint after (x : ascii) (s : string) : string :=
  match s with
  | EmptyString => EmptyString
  | String c s' => if Ascii.eqb c x then s' else after x s'
  end.

(** [s.split(x)]. *)
Fixpoint split (x : ascii) (s : string) : list string :=
  match s with
  | EmptyString => [EmptyString]
  | String c s' =>
      if Ascii.eqb c x then EmptyString :: split x s'
      else
        match split x s' with
        | p :: ps => String c p :: ps
        | [] => [String c EmptyString]
        end
  end%list.

Definition urlparse_query (u : string) : option string := Some (after "?" u).

Definition replace_query (u q : string) : string := before "?" u ++ "?" ++ q.

(** Fields without '=' or with an empty value are dropped. *)
Definition parse_qsl (q : string) : list (string * string) :=
  flat_map (fun nv =>
              if PyStr.contains_char "=" nv && PyStr.truthy (after "=" nv)
              then [(before "=" nv, after "=" nv)] else [])%list
           (split "&" q).

Definition urlencode (items : list (string * string)) : string :=
  PyStr.join "&" (map (fun kv => fst kv ++ "=" ++ snd kv) items).

Definition no_file (_ : string) : bool := false.

End Plain.

(* ------------------------------------------------------------------ *)
(** ** Sample pages *)

Module Sample.
Local Open Scope list_scope.

Definition cell (kind : string) (contents : list node) : node :=
  Tag "td" (Some ["field"; kind]) [] contents.

Definition labelled (label : string) (value : list node) : list node :=
  [Tag "label" None [] [NavigableString label];
   Tag "div" (Some ["value"]) [] value].

Definition link (href : string) (contents : list node) : node :=
  Tag "a" None [("href", href)] contents.

Definition row (cells : list node) : node :=
  Tag "tr" (Some ["bookalike"; "review"]) [("id", "review_1")] cells.

Definition title_cell (contents : list node) : node :=
  cell "title"
       (labelled "title"
          [link "/book/show/364549.A_Letter_Concerning_Toleration" contents]).

Definition locke_title : node :=
  title_cell [NavigableString "
        A Letter Concerning Toleration
"].

(** A row as the shelf page has them. *)
Definition full_row : node :=
  row [cell "cover"
         (labelled "cover"
            [Tag "img" None [("alt", "cover"); ("src", "https://i.gr-assets.com/364549.jpg")] []]);
       locke_title;
       cell "author" (labelled "author" [link "/author/show/2447" [NavigableString "Locke, John"]]);
       cell "num_pages"
         (labelled "num pages"
            [Tag "nobr" None [] [NavigableString "
  1,352
  "; Tag "span" (Some ["greyText"]) [] [NavigableString "pp"]]]);
       cell "date_pub" (labelled "date pub" [NavigableString " Mar 18, 2025 "])].

(** A row with nothing but its title. *)
Definition title_only_row : node := row [locke_title].

(** The title link holds an image and no text. *)
Definition textless_title_row : node :=
  row [title_cell [Tag "img" None [("src", "cover.jpg")] []]].

(** The author cell holds a hyperlink without text. *)
Definition textless_author_row : node :=
  row [locke_title;
       cell "author" (labelled "" [link "/author/show/2447" []])].

(** The author cell holds white space and no hyperlink. *)
Definition blank_author_row : node :=
  row [locke_title; cell "author" [NavigableString "   "]].

(** A header row: no title link. *)
Definition header_row : node :=
  Tag "tr" (Some ["bookalike"]) [] [cell "title" [NavigableString "title"]].

Definition page_of (rows : list node) : node :=
  Tag "[document]" None []
      [Tag "table" (Some ["table"; "stacked"]) [("id", "books")]
           [Tag "tbody" None [("id", "booksBody")] rows]].

Definition shelf : string :=
  "https://www.goodreads.com/review/list/162248230?shelf=read".

(** A site with 24 books behind [shelf]: the body of a page is its URL,
    and the parser gives pages 1 and 2 ten rows, page 3 four, the others
    none. *)
Definition load_html (url : string) : option string := Some url.

Definition BeautifulSoup (html : string) : option node :=
  Some (if String.eqb html (shelf ++ "&per_page=10&page=1")
           || String.eqb html (shelf ++ "&per_page=10&page=2")
        then page_of (repeat full_row 10)
        else if String.eqb html (shelf ++ "&per_page=10&page=3")
        then page_of (repeat title_only_row 4)
        else page_of []).

(** The same shelf asked with a per_page that is not a number; every page
    comes back with twelve rows. *)
Definition odd_shelf : string :=
  "https://www.goodreads.com/review/list/162248230?shelf=read&per_page=all".

Definition twelve_rows (_ : string) : option node :=
  Some (page_of (repeat full_row 12)).

(** The text of a page, for a parser that is given with its tree. *)
Definition markup : string := "<table id='books'> ... </table>".

(** A parser that builds the tree [soup] from the text it is given. *)
Definition builds (soup : node) (_ : string) : option node := Some soup.

(** A parser that refuses the text it is given. *)
Definition refuses (_ : string) : option node := None.

End Sample.

(* ------------------------------------------------------------------ *)
(** ** The identity hash as the specification words it *)

Module HashSpec.

(** The four identity fields: source, externalId, title, authors. *)
Definition quadruple : Type :=
  (option string * option string * option string * option string)%type.

(** An absent field is the empty string. *)
Definition normalize (x : option string) : string :=
  match x with Some s => s | None => "" end.

(** The quadruple after normalising and trimming each field. *)
Definition trimmed (q : quadruple) : list string :=
  let '(source, externalId, title, authors) := q in
  [PyStr.strip (normalize source); PyStr.strip (normalize externalId);
   PyStr.strip (normalize title); PyStr.strip (normalize authors)]%list.

(** The trimmed fields in the fixed order with one '|' between them. *)
Definition joined (q : quadruple) : string :=
  match trimmed q with
  | [s; e; t; a]%list => s ++ "|" ++ e ++ "|" ++ t ++ "|" ++ a
  | _ => ""
  end.

(** SHA-256 of the UTF-8 bytes, in lowercase hexadecimal. *)
Definition hash (q : quadruple) : string :=
  Sha256.hexdigest (Utf8.encode (joined q)).

(** The hash of the script on a quadruple. *)
Definition code_hash (q : quadruple) : string :=
  let '(source, externalId, title, authors) := q in
  compute_key_hash source externalId title authors.

(** No '|' inside the first three trimmed fields. *)
Definition bar_free (q : quadruple) : bool :=
  match trimmed q with
  | [s; e; t; _]%list =>
      negb (PyStr.contains_char "|" s) && negb (PyStr.contains_char "|" e)
      && negb (PyStr.contains_char "|" t)
  | _ => false
  end.

Definition lower_hex (c : ascii) : bool :=
  let n := PyStr.ord c in
  ((48 <=? n) && (n <=? 57)) || ((97 <=? n) && (n <=? 102)).

End HashSpec.

Module Utf8Decode.

(** A left inverse of [Utf8.encode] on the code points below 256. *)
Fixpoint decode (bs : list Z) : string :=
  match bs with
  | nil => EmptyString
  | cons b rest =>
      if b <? 128 then String (ascii_of_N (Z.to_N b)) (decode rest)
      else
        match rest with
        | nil => EmptyString
        | cons b2 rest' =>
            String (ascii_of_N (Z.to_N (Z.lor (Z.shiftl (Z.land b 31) 6)
                                              (Z.land b2 63))))
                   (decode rest')
        end
  end.

End Utf8Decode.

(* ------------------------------------------------------------------ *)
(** ** Readings used for the further properties *)

(** The number a string of decimal digits writes, after [acc]. *)
Fixpoint decimal_value (acc : Z) (s : string) : Z :=
  match s with
  | EmptyString => acc
  | String c s' => decimal_value (10 * acc + digit_value c) s'
  end.

(** The first character is not one of [p] (or there is none). *)
Definition head_not (p : ascii -> bool) (s : string) : bool :=
  match s with
  | EmptyString => true
  | String c _ => negb (p c)
  end.

(** The last character is not one of [p] (or there is none). *)
Fixpoint last_not (p : ascii -> bool) (s : string) : bool :=
  match s with
  | EmptyString => true
  | String c EmptyString => negb (p c)
  | String _ s' => last_not p s'
  end.

Definition is_comma (c : ascii) : bool := Ascii.eqb c ",".

Definition decimal_or_comma (c : ascii) : bool :=
  PyStr.isdecimal c || is_comma c.

(** The stripped visible text of the title link of a row. *)
Definition row_title (row : node) : string :=
  match title_link row with
  | Some link => get_text "" link
  | None => ""
  end.

(** The title of a record, as the record holds it. *)
Definition title_of (b : book) : option json := Dict.get b "title".

(** The record of a row, read off the page tree alone: [None] for a row
    without title link. *)
Definition row_record (row : node) : option book :=
  match title_link row with
  | Some link =>
      Some [("source", JStr "OTHER");
            ("title", JStr (get_text "" link));
            ("authors", json_str (row_authors row));
            ("pageCount", json_int (row_page_count row));
            ("coverUrl", json_str (row_cover_url row))]%list
  | None => None
  end.

Definition page_records (soup : node) : list book :=
  flat_map (fun row => match row_record row with
                       | Some b => [b]%list
                       | None => nil
                       end)
           (entry_rows soup).

(** A title link whose href the URL library refuses. *)
Definition bad_href (urlparse_path : string -> option string)
           (urljoin : string -> string -> option string)
           (shelf_url : option string) (row : node) : bool :=
  has_title_link row && negb (well_formed urlparse_path urljoin shelf_url row).

(** What the fields of a record may hold. *)
Definition count_ok (j : option json) : Prop :=
  match j with
  | Some JNull => True
  | Some (JInt n) => 0 <= n
  | _ => False
  end.

Definition text_ok (j : option json) : Prop :=
  match j with
  | Some JNull => True
  | Some (JStr s) => s <> ""
  | _ => False
  end.

(** The page numbers [p], [p + 1], ..., [k] of them. *)
Fixpoint pages_from (p : Z) (k : nat) : list Z :=
  match k with
  | O => nil
  | S k' => p :: pages_from (p + 1) k'
  end.

(** The test at the end of a turn: the loop goes on after a page that is
    not empty and, with a per_page that is a number, not shorter than it. *)
Definition full_page (per_page : option Z) (recs : list book) : bool :=
  match recs, per_page with
  | nil, _ => false
  | _, None => false
  | _, Some n => negb (Z.of_nat (List.length recs) <? n)
  end.

(** More of the sample site. *)
Module SampleRuns.

(** The state in which the loop leaves the sample shelf. *)
Definition finished : loop_state :=
  match main_loop Plain.urlparse_path Plain.urljoin Plain.urlparse_query
          Plain.replace_query Plain.parse_qsl Plain.urlencode
          Sample.load_html Sample.BeautifulSoup 3 Sample.shelf loop_start with
  | Some (Ok st) => st
  | _ => loop_start
  end.

(** The records of a page of the sample shelf. *)
Definition records (load_html : string -> option string)
           (BeautifulSoup : string -> option node) (resolved : string) (p : Z)
  : list book :=
  match fetch_page Plain.urlparse_path Plain.urljoin Plain.urlparse_query
          Plain.replace_query Plain.parse_qsl Plain.urlencode
          load_html BeautifulSoup resolved p with
  | Ok recs => recs
  | Raise _ => nil
  end.

(** The site no longer answers for page 3. *)
Definition failing_load_html (url : string) : option string :=
  if String.eqb url (Sample.shelf ++ "&per_page=10&page=3") then None
  else Some url.

(** The shelf asked with per_page=0. *)
Definition zero_shelf : string :=
  "https://www.goodreads.com/review/list/162248230?shelf=read&per_page=0".

(** The shelf asked with a per_page that has no value. *)
Definition blank_shelf : string :=
  "https://www.goodreads.com/review/list/162248230?shelf=read&per_page=".

(** The shelf asked with two per_page, the first of them not a number. *)
Definition twice_shelf : string :=
  "https://www.goodreads.com/review/list/162248230?shelf=read&per_page=abc&per_page=10".

End SampleRuns.

(** [c * n]: a character repeated. *)
Fixpoint repeat_char (c : ascii) (n : nat) : string :=
  match n with
  | O => EmptyString
  | S n' => String c (repeat_char c n')
  end.

(* ------------------------------------------------------------------ *)
(** * Properties *)

(** ** Characters *)

Lemma ord_range (c : ascii) : 0 <= PyStr.ord c < 256.
Proof.
  unfold PyStr.ord.
  pose proof (N_ascii_bounded c). lia.
Qed.

Lemma ord_inj (c d : ascii) : PyStr.ord c = PyStr.ord d -> c = d.
Proof.
  unfold PyStr.ord. intros H.
  apply N2Z.inj in H.
  rewrite <- (ascii_N_embedding c), <- (ascii_N_embedding d).
  now rewrite H.
Qed.

(** A character is known by its eight bits: the case analysis used for
    facts about single code points. *)
Ltac by_cases_on_char c :=
  destruct c as [[] [] [] [] [] [] [] []]; try discriminate; try reflexivity.

(** ** UTF-8 *)

Lemma decode_encode_char (c : ascii) (bs : list Z) :
  Utf8Decode.decode (Utf8.encode_char c ++ bs)%list
  = String c (Utf8Decode.decode bs).
Proof.
  by_cases_on_char c.
Qed.

Lemma decode_encode (s : string) : Utf8Decode.decode (Utf8.encode s) = s.
Proof.
  induction s as [|c s IH]; simpl; [reflexivity|].
  now rewrite decode_encode_char, IH.
Qed.

Lemma encode_inj (s1 s2 : string) :
  Utf8.encode s1 = Utf8.encode s2 -> s1 = s2.
Proof.
  intros H.
  rewrite <- (decode_encode s1), <- (decode_encode s2).
  now rewrite H.
Qed.

(** ** The shape of a SHA-256 digest *)

Lemma fold_left_invariant {A B : Type} (f : A -> B -> A) (P : A -> Prop) :
  (forall a b, P a -> P (f a b)) ->
  forall l a, P a -> P (fold_left f l a).
Proof.
  intros step l.
  induction l as [|b l IH]; intros a H; [exact H|].
  apply IH, step, H.
Qed.

Lemma round_length (st : list Z * list Z) (k : Z) :
  List.length (fst st) = 8%nat ->
  List.length (fst (Sha256.round st k)) = 8%nat.
Proof.
  destruct st as [v win]. simpl.
  do 9 (destruct v as [|? v]; try discriminate).
  reflexivity.
Qed.

Lemma compress_length (h block : list Z) :
  List.length h = 8%nat -> List.length (Sha256.compress h block) = 8%nat.
Proof.
  intros H. unfold Sha256.compress.
  pose proof (fold_left_invariant Sha256.round
                (fun st => List.length (fst st) = 8%nat)
                round_length Sha256.K (h, block) H) as R.
  destruct (fold_left Sha256.round Sha256.K (h, block)) as [v w].
  simpl in R.
  rewrite length_map, length_combine, H, R. reflexivity.
Qed.

Lemma blocks_length (bl : list (list Z)) :
  List.length (fold_left Sha256.compress bl Sha256.H0) = 8%nat.
Proof.
  apply (fold_left_invariant Sha256.compress
           (fun h => List.length h = 8%nat) compress_length).
  reflexivity.
Qed.

Lemma be_bytes_length (n : nat) (x : Z) :
  List.length (Sha256.be_bytes n x) = n.
Proof.
  induction n as [|n IH]; simpl; [reflexivity|]. now rewrite IH.
Qed.

Lemma be_bytes_range (n : nat) (x : Z) :
  Forall (fun b => 0 <= b < 256) (Sha256.be_bytes n x).
Proof.
  induction n as [|n IH]; cbn [Sha256.be_bytes]; constructor; [|exact IH].
  change 255 with (Z.ones 8). rewrite Z.land_ones by lia.
  apply Z.mod_pos_bound. lia.
Qed.

Lemma digest_length (msg : list Z) :
  List.length (Sha256.digest msg) = 32%nat.
Proof.
  unfold Sha256.digest.
  set (hs := fold_left Sha256.compress _ Sha256.H0).
  assert (L : List.length hs = 8%nat) by apply blocks_length.
  clearbody hs.
  do 9 (destruct hs as [|? hs]; try discriminate).
  reflexivity.
Qed.

Lemma digest_range (msg : list Z) :
  Forall (fun b => 0 <= b < 256) (Sha256.digest msg).
Proof.
  unfold Sha256.digest.
  set (hs := fold_left Sha256.compress _ Sha256.H0). clearbody hs.
  induction hs as [|h hs IH]; cbn [flat_map]; [constructor|].
  apply Forall_app; split; [apply (be_bytes_range 4)|exact IH].
Qed.

Lemma hex_length (bs : list Z) :
  String.length (Sha256.hex bs) = (2 * List.length bs)%nat.
Proof.
  induction bs as [|b bs IH]; simpl; [reflexivity|]. rewrite IH. lia.
Qed.

Lemma hex_digit_lower (n : Z) :
  0 <= n < 16 -> HashSpec.lower_hex (Sha256.hex_digit n) = true.
Proof.
  intros H.
  assert (T : forallb (fun k => HashSpec.lower_hex
                                  (Sha256.hex_digit (Z.of_nat k)))
                      (seq 0 16) = true) by reflexivity.
  rewrite forallb_forall in T.
  rewrite <- (Z2Nat.id n) by lia.
  apply T, in_seq. lia.
Qed.

Lemma hex_lower (bs : list Z) :
  Forall (fun b => 0 <= b < 256) bs ->
  PyStr.all_chars HashSpec.lower_hex (Sha256.hex bs) = true.
Proof.
  induction 1 as [|b bs Hb _ IH]; [reflexivity|].
  cbn [Sha256.hex PyStr.all_chars].
  rewrite IH, !hex_digit_lower; [reflexivity| |].
  - change 15 with (Z.ones 4). rewrite Z.land_ones by lia.
    apply Z.mod_pos_bound. lia.
  - rewrite Z.shiftr_div_pow2 by lia. change (2 ^ 4) with 16.
    split; [apply Z.div_pos; lia|apply Z.div_lt_upper_bound; lia].
Qed.

Lemma hexdigest_format (msg : list Z) :
  String.length (Sha256.hexdigest msg) = 64%nat
  /\ PyStr.all_chars HashSpec.lower_hex (Sha256.hexdigest msg) = true.
Proof.
  unfold Sha256.hexdigest. split.
  - now rewrite hex_length, digest_length.
  - apply hex_lower, digest_range.
Qed.

(** The model against the test vectors of the standard. *)
Example sha256_abc :
  Sha256.hexdigest (Utf8.encode "abc")
  = "ba7816bf8f01cfea414140de5dae2223b00361a396177a9cb410ff61f20015ad".
Proof. vm_compute. reflexivity. Qed.

Example sha256_empty :
  Sha256.hexdigest (Utf8.encode "")
  = "e3b0c44298fc1c149afbf4c8996fb92427ae41e4649b934ca495991b7852b855".
Proof. vm_compute. reflexivity. Qed.

Example sha256_two_blocks :
  Sha256.hexdigest
    (Utf8.encode "abcdbcdecdefdefgefghfghighijhijkijkljklmklmnlmnomnopnopq")
  = "248d6a61d20638b8e5c026930c3e6039a33ce45964ff2167f6ecedd419db06c1".
Proof. vm_compute. reflexivity. Qed.

(** ** The cells of the specification's examples *)

Example pages_352 : extract_int_from_text (Some "352 pages") = Some 352.
Proof. reflexivity. Qed.

Example pages_1024 : extract_int_from_text (Some "1,024") = Some 1024.
Proof. reflexivity. Qed.

Example pages_not_available : extract_int_from_text (Some "N/A") = None.
Proof. reflexivity. Qed.

Example year_2025 : extract_year_from_date (Some "Mar 18, 2025") = Some 2025.
Proof. reflexivity. Qed.

Example year_missing : extract_year_from_date (Some "Mar 18") = None.
Proof. reflexivity. Qed.

Example external_id_of_href :
  extract_external_id Plain.urlparse_path
    "/book/show/364549.A_Letter_Concerning_Toleration" = Ok (Some "364549").
Proof. reflexivity. Qed.

(** A title with a code point above 127 and an author followed by a
    no-break space, which [strip] removes. *)
Example key_hash_latin1 :
  compute_key_hash (Some "OTHER") None
                   (Some (String "201" "mile"))
                   (Some ("Rousseau" ++ String "160" ""))
  = "044699f3daed46d061d9173eb89f80f1c5b6f6ec0dce7f7ed91a6982c5855021".
Proof. vm_compute. reflexivity. Qed.

(** ** The string that is hashed *)

Lemma or_empty_normalize (x : option string) :
  PyStr.or_empty x = HashSpec.normalize x.
Proof.
  destruct x as [[|c s]|]; reflexivity.
Qed.

Lemma code_hash_unfold (q : HashSpec.quadruple) :
  HashSpec.code_hash q = Sha256.hexdigest (Utf8.encode (HashSpec.joined q)).
Proof.
  destruct q as [[[s e] t] a].
  unfold HashSpec.code_hash, compute_key_hash, HashSpec.joined, HashSpec.trimmed.
  rewrite !or_empty_normalize. reflexivity.
Qed.

Lemma bar_split (s1 s2 r1 r2 : string) :
  PyStr.contains_char "|" s1 = false ->
  PyStr.contains_char "|" s2 = false ->
  s1 ++ "|" ++ r1 = s2 ++ "|" ++ r2 -> s1 = s2 /\ r1 = r2.
Proof.
  revert s2.
  induction s1 as [|c s1 IH]; intros [|d s2] H1 H2 E; simpl in *.
  - now injection E.
  - injection E as <- _. rewrite Ascii.eqb_refl in H2. discriminate.
  - injection E as -> _. rewrite Ascii.eqb_refl in H1. discriminate.
  - injection E as <- E.
    apply orb_false_iff in H1 as [_ H1].
    apply orb_false_iff in H2 as [_ H2].
    destruct (IH _ H1 H2 E) as [-> ->]. now split.
Qed.

Lemma joined_inj (q1 q2 : HashSpec.quadruple) :
  HashSpec.bar_free q1 = true -> HashSpec.bar_free q2 = true ->
  HashSpec.joined q1 = HashSpec.joined q2 ->
  HashSpec.trimmed q1 = HashSpec.trimmed q2.
Proof.
  destruct q1 as [[[s1 e1] t1] a1], q2 as [[[s2 e2] t2] a2].
  unfold HashSpec.bar_free, HashSpec.joined, HashSpec.trimmed.
  intros B1 B2 E.
  apply andb_true_iff in B1 as [B1 Bt1]. apply andb_true_iff in B1 as [Bs1 Be1].
  apply andb_true_iff in B2 as [B2 Bt2]. apply andb_true_iff in B2 as [Bs2 Be2].
  apply negb_true_iff in Bs1, Be1, Bt1, Bs2, Be2, Bt2.
  apply bar_split in E as [-> E]; [|assumption..].
  apply bar_split in E as [-> E]; [|assumption..].
  apply bar_split in E as [-> ->]; [|assumption..].
  reflexivity.
Qed.

(** ** C3: the key hash across distinct quadruples *)

(** C3, as stated, fails: two quadruples that differ after trimming
    (the '|' sits in the title of one and in the authors of the other)
    have the same key hash. *)
Lemma key_hash_collision :
  let q1 := (Some "OTHER", None, Some "A|B", Some "C") in
  let q2 := (Some "OTHER", None, Some "A", Some "B|C") in
  HashSpec.trimmed q1 <> HashSpec.trimmed q2
  /\ HashSpec.code_hash q1 = HashSpec.code_hash q2.
Proof.
  split; [discriminate|vm_compute; reflexivity].
Qed.

(** C3, amended: when source, externalId and title hold no '|' after
    trimming, two quadruples that differ after trimming give different
    byte strings to SHA-256, and the key hash is the digest of that byte
    string; so such quadruples collide only where SHA-256 does. *)
Theorem key_hash_input_injective (q1 q2 : HashSpec.quadruple) :
  HashSpec.bar_free q1 = true ->
  HashSpec.bar_free q2 = true ->
  HashSpec.trimmed q1 <> HashSpec.trimmed q2 ->
  Utf8.encode (HashSpec.joined q1) <> Utf8.encode (HashSpec.joined q2)
  /\ HashSpec.code_hash q1 = Sha256.hexdigest (Utf8.encode (HashSpec.joined q1))
  /\ HashSpec.code_hash q2 = Sha256.hexdigest (Utf8.encode (HashSpec.joined q2)).
Proof.
  intros B1 B2 D. split; [|split; apply code_hash_unfold].
  intros E. apply D, joined_inj; try assumption.
  now apply encode_inj.
Qed.

Lemma key_hash_input_injective_witness :
  let q1 := (Some "OTHER", Some "364549", Some " A Letter ", Some "John Locke") in
  let q2 := (Some "OTHER", Some "364550", Some "A Letter", None) in
  Utf8.encode (HashSpec.joined q1) <> Utf8.encode (HashSpec.joined q2)
  /\ HashSpec.code_hash q1 = Sha256.hexdigest (Utf8.encode (HashSpec.joined q1))
  /\ HashSpec.code_hash q2 = Sha256.hexdigest (Utf8.encode (HashSpec.joined q2)).
Proof.
  intros q1 q2.
  apply (key_hash_input_injective q1 q2);
    [reflexivity | reflexivity | discriminate].
Defined.

(** ** C4: the key hash is the digest the specification describes *)

(** C4: [compute_key_hash] is the lowercase hexadecimal SHA-256 digest (64
    characters in 0-9a-f) of the UTF-8 bytes of the four fields, each the
    empty string when absent and trimmed, joined by '|' in the order
    source, externalId, title, authors; and quadruples that are equal after
    trimming have the same hash. *)
Theorem compute_key_hash_spec (source externalId title authors : option string) :
  let q := (source, externalId, title, authors) in
  compute_key_hash source externalId title authors = HashSpec.hash q
  /\ String.length (compute_key_hash source externalId title authors) = 64%nat
  /\ PyStr.all_chars HashSpec.lower_hex
       (compute_key_hash source externalId title authors) = true
  /\ forall q', HashSpec.trimmed q = HashSpec.trimmed q' ->
                HashSpec.code_hash q' =
                compute_key_hash source externalId title authors.
Proof.
  intros q.
  assert (E : compute_key_hash source externalId title authors = HashSpec.hash q)
    by apply (code_hash_unfold q).
  rewrite E. unfold HashSpec.hash.
  split; [reflexivity|].
  split; [apply hexdigest_format|].
  split; [apply hexdigest_format|].
  intros q' T. rewrite code_hash_unfold.
  unfold HashSpec.joined. now rewrite T.
Qed.

Lemma compute_key_hash_spec_witness :
  HashSpec.code_hash (Some " OTHER", None, Some "A Letter  ", Some "")
  = compute_key_hash (Some "OTHER") (Some " ") (Some "A Letter") None
  /\ compute_key_hash (Some "OTHER") (Some " ") (Some "A Letter") None
     = "45c50aafce8c7ba6cb0cf8e9103f9cfbeb9df8d8ab216de82a340b3762acce20".
Proof.
  split.
  - exact (proj2 (proj2 (proj2
             (compute_key_hash_spec (Some "OTHER") (Some " ") (Some "A Letter") None)))
             (Some " OTHER", None, Some "A Letter  ", Some "") eq_refl).
  - vm_compute. reflexivity.
Defined.

(** ** C1: the year of a publication date *)

Lemma search_d4_skip (a : ascii) (rest : string) :
  PyStr.isdecimal a = false ->
  Re.search_d4 (String a rest) = Re.search_d4 rest.
Proof.
  intros H.
  destruct rest as [|b [|c [|d rest]]]; try reflexivity.
  cbn [Re.search_d4]. rewrite H. reflexivity.
Qed.

Lemma search_d4_skip_prefix (pre rest : string) :
  PyStr.all_chars no_decimal pre = true ->
  Re.search_d4 (pre ++ rest) = Re.search_d4 rest.
Proof.
  induction pre as [|a pre IH]; intros H; [reflexivity|].
  cbn [PyStr.all_chars] in H. apply andb_true_iff in H as [Ha H].
  change (String a pre ++ rest) with (String a (pre ++ rest)).
  rewrite search_d4_skip by now apply negb_true_iff.
  now apply IH.
Qed.

Lemma search_d4_here (a b c d : ascii) (rest : string) :
  PyStr.isdecimal a = true -> PyStr.isdecimal b = true ->
  PyStr.isdecimal c = true -> PyStr.isdecimal d = true ->
  Re.search_d4 (String a (String b (String c (String d rest))))
  = Some (String a (String b (String c (String d "")))).
Proof.
  intros Ha Hb Hc Hd. cbn [Re.search_d4]. now rewrite Ha, Hb, Hc, Hd.
Qed.

Lemma decimal_not_space (c : ascii) :
  PyStr.isdecimal c = true ->
  PyStr.int_space c = false /\ Ascii.eqb c "-" = false /\ Ascii.eqb c "+" = false.
Proof.
  by_cases_on_char c; intros _; repeat split.
Qed.

Lemma int_d4 (a b c d : ascii) :
  PyStr.isdecimal a = true -> PyStr.isdecimal b = true ->
  PyStr.isdecimal c = true -> PyStr.isdecimal d = true ->
  PyStr.int (String a (String b (String c (String d ""))))
  = Some (1000 * digit_value a + 100 * digit_value b
          + 10 * digit_value c + digit_value d).
Proof.
  intros Ha Hb Hc Hd.
  destruct (decimal_not_space a Ha) as (Sa & Ma & Pa).
  destruct (decimal_not_space b Hb) as (Sb & _).
  destruct (decimal_not_space c Hc) as (Sc & _).
  destruct (decimal_not_space d Hd) as (Sd & _).
  unfold PyStr.int.
  cbn [PyStr.lstrip_by PyStr.rstrip_by]. rewrite Sa.
  cbn [PyStr.rstrip_by]. rewrite Sd.
  cbn [PyStr.count_chars]. rewrite Ha, Hb, Hc, Hd.
  cbn [PyStr.int_max_str_digits Z.ltb Z.add Z.compare Pos.add Pos.succ Pos.compare
       Pos.compare_cont].
  assert (E : PyStr.int_digits false 0 (String a (String b (String c (String d ""))))
              = Some (1000 * digit_value a + 100 * digit_value b
                      + 10 * digit_value c + digit_value d)).
  { cbn [PyStr.int_digits]. rewrite Ha, Hb, Hc, Hd.
    f_equal. unfold digit_value. lia. }
  destruct a as [a0 a1 a2 a3 a4 a5 a6 a7].
  destruct a0, a1, a2, a3, a4, a5, a6, a7; try discriminate; exact E.
Qed.

(** C1 (the script departs from it): the year is taken from the FIRST four
    consecutive decimal digits of the text, whatever follows them, so a
    later 4-digit run is never the one returned.  Here the digits [a b c d]
    come after a digit-free prefix and [rest] is arbitrary. *)
Theorem extract_year_first_run (pre rest : string) (a b c d : ascii) :
  PyStr.all_chars no_decimal pre = true ->
  PyStr.isdecimal a = true -> PyStr.isdecimal b = true ->
  PyStr.isdecimal c = true -> PyStr.isdecimal d = true ->
  extract_year_from_date
    (Some (pre ++ String a (String b (String c (String d rest)))))
  = Some (1000 * digit_value a + 100 * digit_value b
          + 10 * digit_value c + digit_value d).
Proof.
  intros Hpre Ha Hb Hc Hd.
  unfold extract_year_from_date.
  assert (T : PyStr.truthy (pre ++ String a (String b (String c (String d rest))))
              = true) by (destruct pre; reflexivity).
  rewrite T. cbn [negb].
  rewrite (search_d4_skip_prefix _ _ Hpre), (search_d4_here _ _ _ _ _ Ha Hb Hc Hd).
  now rewrite (int_d4 _ _ _ _ Ha Hb Hc Hd).
Qed.

Lemma extract_year_first_run_witness :
  extract_year_from_date (Some "Jan 1999 (reissued 2025)") = Some 1999.
Proof.
  exact (extract_year_first_run "Jan " " (reissued 2025)" "1" "9" "9" "9"
           eq_refl eq_refl eq_refl eq_refl eq_refl).
Defined.

(** ** C9: the resolver *)

Lemma all_decimal_isdigit (raw : string) :
  all_decimal_digits raw = true -> PyStr.isdigit raw = true.
Proof.
  unfold all_decimal_digits, PyStr.isdigit.
  destruct raw as [|c raw]; [discriminate|].
  cbn [PyStr.truthy andb].
  generalize (String c raw). clear. intros s.
  induction s as [|c s IH]; [reflexivity|].
  cbn [PyStr.all_chars]. intros H.
  apply andb_true_iff in H as [Hc H].
  rewrite (IH H). unfold PyStr.isdigit_char. rewrite Hc. reflexivity.
Qed.

(** C9, as stated, fails: the one-character string made of the superscript
    two (code point 178) names no file, is not made of decimal digits and
    does not begin with http, and yet it is not returned unchanged: the
    script takes it for a user id. *)
Lemma resolve_input_superscript_two :
  let raw := String "178" "" in
  Plain.no_file raw = false
  /\ all_decimal_digits raw = false
  /\ PyStr.startswith raw "http://" = false
  /\ PyStr.startswith raw "https://" = false
  /\ resolve_input Plain.no_file raw <> raw
  /\ resolve_input Plain.no_file raw = shelf_url_of raw.
Proof.
  repeat split. discriminate.
Qed.

(** C9, amended: an existing local path is returned unchanged; otherwise
    a non-empty string all of whose characters are digits for
    [str.isdigit] (the decimal digits, and others such as the superscript
    digits) gives [<base>/review/list/<id>?shelf=read]; otherwise the
    input, beginning with http:// or https:// or not, is returned
    unchanged.  A string of decimal digits is such a string of digits. *)
Theorem resolve_input_rules (path_exists : string -> bool) (raw : string) :
  (path_exists raw = true -> resolve_input path_exists raw = raw)
  /\ (path_exists raw = false -> PyStr.isdigit raw = true ->
      resolve_input path_exists raw = shelf_url_of raw)
  /\ (path_exists raw = false -> all_decimal_digits raw = true ->
      resolve_input path_exists raw = shelf_url_of raw)
  /\ (path_exists raw = false -> PyStr.isdigit raw = false ->
      resolve_input path_exists raw = raw).
Proof.
  unfold resolve_input, shelf_url_of.
  repeat split.
  - now intros ->.
  - now intros -> ->.
  - intros -> H. now rewrite (all_decimal_isdigit _ H).
  - intros -> ->. now destruct (_ || _).
Qed.

Lemma resolve_input_rules_witness :
  resolve_input Plain.no_file "162248230"
  = "https://www.goodreads.com/review/list/162248230?shelf=read"
  /\ contains "/review/list/162248230" (resolve_input Plain.no_file "162248230") = true
  /\ contains "shelf=read" (resolve_input Plain.no_file "162248230") = true
  /\ resolve_input Plain.no_file "https://example.com/x" = "https://example.com/x"
  /\ resolve_input (String.eqb "Noah-read-shelf.html") "Noah-read-shelf.html"
     = "Noah-read-shelf.html".
Proof.
  pose proof (resolve_input_rules Plain.no_file "162248230") as (_ & _ & D & _).
  pose proof (resolve_input_rules Plain.no_file "https://example.com/x") as (_ & _ & _ & U).
  pose proof (resolve_input_rules (String.eqb "Noah-read-shelf.html")
                "Noah-read-shelf.html") as (F & _).
  rewrite (D eq_refl eq_refl), (U eq_refl eq_refl), (F eq_refl).
  repeat split.
Defined.

(** ** The rows of a page *)

Section Rows.

Variable urlparse_path : string -> option string.
Variable urljoin : string -> string -> option string.
Variable shelf_url : option string.

Local Abbreviation values := (row_values urlparse_path urljoin shelf_url).
Local Abbreviation rows_loop := (parse_rows urlparse_path urljoin shelf_url).
Local Abbreviation accepted := (well_formed urlparse_path urljoin shelf_url).

(** A row without title link is skipped. *)
Lemma row_values_skip (row : node) :
  has_title_link row = false -> values row = Ok None.
Proof.
  unfold has_title_link, title_link, row_values.
  destruct (find row "td" _) as [td|]; [|reflexivity].
  destruct (find td "a" _); [discriminate|reflexivity].
Qed.

(** What the loop body has in its variables when it builds a record. *)
Lemma row_values_record (row : node) (v : row_locals) :
  values row = Ok (Some v) ->
  (exists link, title_link row = Some link /\ title v = get_text "" link)
  /\ source v = "OTHER"
  /\ authors v = row_authors row
  /\ page_count v = row_page_count row
  /\ cover_url v = row_cover_url row
  /\ published_year v = row_published_year row
  /\ key_hash v = compute_key_hash (Some "OTHER") (external_id v)
                                   (Some (title v)) (authors v).
Proof.
  unfold title_link, row_values.
  destruct (find row "td" _) as [td|]; [|discriminate].
  destruct (find td "a" _) as [link|]; [|discriminate].
  destruct (if _ : bool then _ else _) as [u|e]; [|discriminate].
  cbn [bind].
  destruct (extract_external_id _ _) as [x|e]; [|discriminate].
  cbn [bind]. intros [= <-].
  cbn [title source authors page_count cover_url published_year key_hash
       external_id].
  split; [now exists link|]. repeat split.
Qed.

Lemma row_values_has_link (row : node) (v : row_locals) :
  values row = Ok (Some v) -> has_title_link row = true.
Proof.
  intros H. destruct (row_values_record _ _ H) as ((link & L & _) & _).
  unfold has_title_link. now rewrite L.
Qed.

Lemma row_values_continue (row : node) :
  values row = Ok None -> has_title_link row = false.
Proof.
  unfold has_title_link, title_link, row_values.
  destruct (find row "td" _) as [td|]; [|reflexivity].
  destruct (find td "a" _) as [link|]; [|reflexivity].
  destruct (if _ : bool then _ else _) as [u|e]; [|discriminate].
  cbn [bind].
  destruct (extract_external_id _ _) as [x|e]; discriminate.
Qed.

(** A well-formed row gives a record: nothing raises. *)
Lemma row_values_well_formed (row : node) :
  accepted row = true -> exists v, values row = Ok (Some v).
Proof.
  unfold well_formed, title_link, row_values, href_parses, extract_external_id.
  destruct (find row "td" _) as [td|]; [|discriminate].
  destruct (find td "a" _) as [link|]; [|discriminate].
  intros H. apply andb_true_iff in H as [J P].
  destruct (PyStr.truthy (PyStr.or_empty shelf_url) && _).
  - destruct (urljoin _ _) as [u|]; [|discriminate]. cbn [or_raise bind].
    destruct (PyStr.truthy (getitem link "href")); cbn [negb].
    + destruct (urlparse_path _) as [p|]; [|discriminate].
      cbn [or_raise bind]. eauto.
    + cbn [bind]. eauto.
  - cbn [bind].
    destruct (PyStr.truthy (getitem link "href")); cbn [negb].
    + destruct (urlparse_path _) as [p|]; [|discriminate].
      cbn [or_raise bind]. eauto.
    + cbn [bind]. eauto.
Qed.

(** The loop over the rows appends, in order, the records of the rows that
    have a title link. *)
Lemma parse_rows_spec (rows : list node) :
  forall acc books,
    rows_loop rows acc = Ok books ->
    exists vs,
      books = (acc ++ map book_obj vs)%list
      /\ Forall (fun v => exists row, In row rows /\ values row = Ok (Some v)) vs
      /\ List.length vs = List.length (filter has_title_link rows).
Proof.
  induction rows as [|row rows IH]; intros acc books H.
  - injection H as <-. exists nil. rewrite app_nil_r. repeat split. constructor.
  - cbn [parse_rows] in H.
    destruct (values row) as [[v|]|e] eqn:V; cbn [bind] in H; [| |discriminate].
    + destruct (IH _ _ H) as (vs & -> & F & L).
      exists (v :: vs). rewrite <- app_assoc. split; [reflexivity|]. split.
      * constructor; [exists row; split; [now left|exact V]|].
        eapply Forall_impl; [|exact F].
        intros w (r & I & W). exists r. split; [now right|exact W].
      * cbn [filter]. rewrite (row_values_has_link _ _ V). cbn. now rewrite L.
    + destruct (IH _ _ H) as (vs & -> & F & L).
      exists vs. split; [reflexivity|]. split.
      * eapply Forall_impl; [|exact F].
        intros w (r & I & W). exists r. split; [now right|exact W].
      * cbn [filter]. now rewrite (row_values_continue _ V).
Qed.

Lemma parse_rows_total (rows : list node) :
  forallb accepted rows = true ->
  forall acc, exists books,
    rows_loop rows acc = Ok books
    /\ List.length books = (List.length acc + List.length rows)%nat.
Proof.
  induction rows as [|row rows IH]; intros W acc.
  - exists acc. split; [reflexivity|]. cbn. lia.
  - cbn [forallb] in W. apply andb_true_iff in W as [Wr W].
    destruct (row_values_well_formed _ Wr) as (v & V).
    destruct (IH W (acc ++ [book_obj v])%list) as (books & P & L).
    exists books. cbn [parse_rows]. rewrite V. cbn [bind].
    split; [exact P|]. rewrite L, length_app. cbn. lia.
Qed.

End Rows.

(** [parse_shelf] is the loop over the rows of the tree the parser builds. *)
Lemma parse_shelf_tree
  (urlparse_path : string -> option string)
  (urljoin : string -> string -> option string)
  (BeautifulSoup : string -> option node)
  (html : string) (shelf_url : option string) (soup : node) :
  BeautifulSoup html = Some soup ->
  parse_shelf urlparse_path urljoin BeautifulSoup html shelf_url
  = parse_rows urlparse_path urljoin shelf_url (entry_rows soup) nil.
Proof.
  intros B. unfold parse_shelf. now rewrite B.
Qed.

Lemma parse_shelf_ok
  (urlparse_path : string -> option string)
  (urljoin : string -> string -> option string)
  (BeautifulSoup : string -> option node)
  (html : string) (shelf_url : option string) (books : list book) :
  parse_shelf urlparse_path urljoin BeautifulSoup html shelf_url = Ok books ->
  exists soup,
    BeautifulSoup html = Some soup
    /\ parse_rows urlparse_path urljoin shelf_url (entry_rows soup) nil
       = Ok books.
Proof.
  unfold parse_shelf.
  destruct (BeautifulSoup html) as [soup|]; [|discriminate].
  intros H. now exists soup.
Qed.

(** ** C2: the fields of a record *)

(** C2, as stated, fails: the record of a row with every cell filled in
    has no keyHash, no externalId and no publishedYear, although the loop
    body has computed all three. *)
Lemma parse_shelf_omits_key_hash :
  exists b v,
    parse_shelf Plain.urlparse_path Plain.urljoin
                (Sample.builds (Sample.page_of [Sample.full_row]))
                Sample.markup (Some Sample.shelf) = Ok [b]
    /\ row_values Plain.urlparse_path Plain.urljoin (Some Sample.shelf)
                  Sample.full_row = Ok (Some v)
    /\ key_hash v
       = "d418691efbb66bba5c58ea29127e5ce2a9d9349e7b8e30a0404af8ed0636a3d0"
    /\ external_id v = Some "364549"
    /\ published_year v = Some 2025
    /\ Dict.get b "keyHash" = None
    /\ Dict.get b "externalId" = None
    /\ Dict.get b "publishedYear" = None.
Proof.
  do 2 eexists. vm_compute. repeat split.
Qed.

(** C2, amended: every record [parse_shelf] returns comes from a row and
    holds exactly the five fields source, title, authors, pageCount and
    coverUrl, in this order; source is OTHER, title is the text of the title
    link, and authors, pageCount and coverUrl are an explicit null when
    absent.  externalId, publishedYear and keyHash (the digest of source,
    externalId, title, authors) are computed for the row but are not in the
    record. *)
Theorem parse_shelf_record_fields
  (urlparse_path : string -> option string)
  (urljoin : string -> string -> option string)
  (BeautifulSoup : string -> option node)
  (html : string) (shelf_url : option string) (books : list book) :
  parse_shelf urlparse_path urljoin BeautifulSoup html shelf_url = Ok books ->
  exists soup,
  BeautifulSoup html = Some soup /\
  Forall (fun b =>
            exists row v,
              In row (entry_rows soup)
              /\ row_values urlparse_path urljoin shelf_url row = Ok (Some v)
              /\ key_hash v = compute_key_hash (Some "OTHER") (external_id v)
                                               (Some (title v)) (authors v)
              /\ b = [("source", JStr "OTHER");
                      ("title", JStr (title v));
                      ("authors", json_str (row_authors row));
                      ("pageCount", json_int (row_page_count row));
                      ("coverUrl", json_str (row_cover_url row))]%list)
         books.
Proof.
  intros H0. destruct (parse_shelf_ok _ _ _ _ _ _ H0) as (soup & B & H).
  exists soup. split; [exact B|]. unfold entry_rows in *.
  destruct (parse_rows_spec _ _ _ _ _ _ H) as (vs & -> & F & _).
  cbn [app]. clear H H0.
  induction F as [|v vs (row & I & V) _ IH]; [constructor|].
  cbn [map]. constructor; [|exact IH].
  exists row, v.
  destruct (row_values_record _ _ _ _ _ V) as (_ & S & A & P & C & _ & K).
  repeat split; try assumption.
  unfold book_obj. now rewrite S, A, P, C.
Qed.

Lemma parse_shelf_record_fields_witness :
  exists books,
    parse_shelf Plain.urlparse_path Plain.urljoin
                (Sample.builds
                   (Sample.page_of [Sample.title_only_row; Sample.full_row]))
                Sample.markup None
    = Ok books
    /\ Forall (fun b => Dict.keys b
                        = ["source"; "title"; "authors"; "pageCount"; "coverUrl"]%list)
              books.
Proof.
  eexists. split; [vm_compute; reflexivity|].
  destruct (parse_shelf_record_fields Plain.urlparse_path Plain.urljoin
              (Sample.builds
                 (Sample.page_of [Sample.title_only_row; Sample.full_row]))
              Sample.markup None _ ltac:(vm_compute; reflexivity))
    as (soup & _ & F).
  eapply Forall_impl; [|exact F].
  intros b (row & v & _ & _ & _ & ->). reflexivity.
Defined.

(** ** C7: titles and the number of records *)

(** C7, as stated, fails: a row whose title link holds an image and no
    text gives a record, and its title is the empty string. *)
Lemma parse_shelf_empty_title :
  has_title_link Sample.textless_title_row = true
  /\ exists b,
       parse_shelf Plain.urlparse_path Plain.urljoin
                   (Sample.builds (Sample.page_of [Sample.textless_title_row]))
                   Sample.markup None = Ok [b]
       /\ Dict.get b "title" = Some (JStr "").
Proof.
  split; [reflexivity|]. eexists. vm_compute. split; reflexivity.
Qed.

(** ** C8: the authors of a row *)

(** C8 (the script departs from it): an author cell whose only hyperlink
    has no text gives the empty string, not null, while an author cell that
    is blank and has no hyperlink gives null. *)
Theorem row_authors_textless_link :
  row_authors Sample.textless_author_row = Some ""
  /\ row_authors Sample.blank_author_row = None
  /\ exists b,
       parse_shelf Plain.urlparse_path Plain.urljoin
                   (Sample.builds (Sample.page_of [Sample.textless_author_row]))
                   Sample.markup None = Ok [b]
       /\ Dict.get b "authors" = Some (JStr "").
Proof.
  split; [reflexivity|]. split; [reflexivity|].
  eexists. vm_compute. split; reflexivity.
Qed.

(** ** Dictionaries *)

Lemma get_set {V : Type} (d : Dict.t (V := V)) (k k' : string) (v : V) :
  Dict.get (Dict.set d k v) k'
  = if String.eqb k k' then Some v else Dict.get d k'.
Proof.
  induction d as [|[k0 v0] d IH]; cbn [Dict.set Dict.get].
  - reflexivity.
  - destruct (String.eqb k0 k) eqn:E; cbn [Dict.get].
    + apply String.eqb_eq in E. subst k0. now destruct (String.eqb k k').
    + rewrite IH.
      destruct (String.eqb k0 k') eqn:E'; [|reflexivity].
      apply String.eqb_eq in E'. subst k0. now rewrite String.eqb_sym, E.
Qed.

Lemma get_app {V : Type} (d d' : Dict.t (V := V)) (k : string) :
  Dict.get (d ++ d')%list k
  = match Dict.get d k with Some v => Some v | None => Dict.get d' k end.
Proof.
  induction d as [|[k0 v0] d IH]; cbn [app Dict.get]; [reflexivity|].
  now destruct (String.eqb k0 k).
Qed.

Lemma get_fold_set (pairs : list (string * string)) :
  forall (d : Dict.t (V := string)) (k : string),
    Dict.get (fold_left (fun d kv => Dict.set d (fst kv) (snd kv)) pairs d) k
    = match last_value pairs k with
      | Some v => Some v
      | None => Dict.get d k
      end.
Proof.
  unfold last_value.
  induction pairs as [|[k0 v0] pairs IH]; intros d k; [reflexivity|].
  cbn [fold_left rev fst snd]. rewrite IH, get_app, get_set.
  destruct (Dict.get (rev pairs) k); [reflexivity|].
  cbn [Dict.get]. now destruct (String.eqb k0 k).
Qed.

(** [dict(pairs)] keeps, for every key, the value of its last pair. *)
Lemma get_of_pairs (pairs : list (string * string)) (k : string) :
  Dict.get (Dict.of_pairs pairs) k = last_value pairs k.
Proof.
  unfold Dict.of_pairs. rewrite get_fold_set.
  now destruct (last_value pairs k).
Qed.

Lemma keys_set {V : Type} (d : Dict.t (V := V)) (k : string) (v : V) :
  Dict.keys (Dict.set d k v)
  = if is_some (Dict.get d k) then Dict.keys d else (Dict.keys d ++ [k])%list.
Proof.
  unfold Dict.keys.
  induction d as [|[k0 v0] d IH]; cbn [Dict.set Dict.get map app is_some].
  - reflexivity.
  - destruct (String.eqb k0 k); cbn [map is_some]; [reflexivity|].
    rewrite IH. now destruct (is_some (Dict.get d k)).
Qed.

Lemma get_None_keys {V : Type} (d : Dict.t (V := V)) (k : string) :
  Dict.get d k = None -> ~ In k (Dict.keys d).
Proof.
  unfold Dict.keys.
  induction d as [|[k0 v0] d IH]; cbn [Dict.get map In]; [tauto|].
  destruct (String.eqb k0 k) eqn:E; [discriminate|].
  apply String.eqb_neq in E. intros G [H|H]; [contradiction|now apply IH].
Qed.

Lemma NoDup_keys_set {V : Type} (d : Dict.t (V := V)) (k : string) (v : V) :
  NoDup (Dict.keys d) -> NoDup (Dict.keys (Dict.set d k v)).
Proof.
  intros N. rewrite keys_set.
  destruct (Dict.get d k) eqn:G; cbn [is_some]; [exact N|].
  apply NoDup_app; repeat split.
  - exact N.
  - constructor; [intros []|constructor].
  - intros x I [<-|[]]. now apply (get_None_keys _ _ G).
Qed.

Lemma NoDup_keys_of_pairs (pairs : list (string * string)) :
  NoDup (Dict.keys (Dict.of_pairs pairs)).
Proof.
  unfold Dict.of_pairs.
  apply (fold_left_invariant
           (fun d kv => Dict.set d (fst kv) (snd kv))
           (fun d => NoDup (Dict.keys d))).
  - intros d kv. apply NoDup_keys_set.
  - constructor.
Qed.

Lemma values_of_get (d : Dict.t (V := string)) (k : string) :
  NoDup (Dict.keys d) ->
  values_of k d = match Dict.get d k with Some v => [v]%list | None => nil end.
Proof.
  unfold values_of, Dict.keys.
  induction d as [|[k0 v0] d IH]; cbn [map filter Dict.get fst]; [reflexivity|].
  intros N. inversion N as [|? ? Hn N']. subst.
  destruct (String.eqb k0 k) eqn:E.
  - apply String.eqb_eq in E. subst k0. cbn [map snd]. f_equal.
    rewrite (IH N').
    destruct (Dict.get d k) eqn:G; [|reflexivity].
    exfalso. apply Hn. clear - G.
    induction d as [|[k1 v1] d IH]; [discriminate|].
    cbn [Dict.get] in G. cbn [map fst In].
    destruct (String.eqb k1 k) eqn:E; [left; now apply String.eqb_eq|right; auto].
  - now apply IH.
Qed.

(** ** C6: the query of a page URL *)

Lemma page_qs_get (pairs : list (string * string)) (page : Z) (k : string) :
  Dict.get (page_qs pairs page) k
  = if String.eqb "page" k then Some (PyStr.str_of_Z page)
    else if String.eqb "per_page" k then Some (per_page_text pairs)
    else last_value pairs k.
Proof.
  unfold page_qs, Dict.setdefault, per_page_text.
  rewrite get_set. destruct (String.eqb "page" k); [reflexivity|].
  rewrite (get_of_pairs pairs "per_page").
  destruct (last_value pairs "per_page") as [v|] eqn:L.
  - rewrite get_of_pairs.
    destruct (String.eqb "per_page" k) eqn:E; [|reflexivity].
    apply String.eqb_eq in E. now subst k.
  - now rewrite get_set, get_of_pairs.
Qed.

Lemma page_qs_NoDup (pairs : list (string * string)) (page : Z) :
  NoDup (Dict.keys (page_qs pairs page)).
Proof.
  unfold page_qs, Dict.setdefault.
  apply NoDup_keys_set.
  destruct (Dict.get _ _); [|apply NoDup_keys_set]; apply NoDup_keys_of_pairs.
Qed.

(** C6, as stated, fails: of a query key that the URL repeats only the
    last value is in the rebuilt query. *)
Lemma page_qs_repeated_key :
  let pairs := [("shelf", "read"); ("author", "Locke"); ("author", "Hume")]%list in
  values_of "author" pairs = ["Locke"; "Hume"]%list
  /\ values_of "author" (page_qs pairs 1) = ["Hume"]%list
  /\ page_request Plain.urlparse_query Plain.replace_query Plain.parse_qsl
       Plain.urlencode
       "https://www.goodreads.com/review/list/1?shelf=read&author=Locke&author=Hume" 1
     = Ok (page_qs pairs 1,
           "https://www.goodreads.com/review/list/1?shelf=read&author=Hume&per_page=10&page=1").
Proof.
  repeat split.
Qed.

(** C6, amended: the query of the rebuilt page URL is the encoding of a
    dictionary in which page is the current page number, per_page is the
    one of the URL or else 10, and every other key of the URL's query
    appears once, with the value of its last occurrence; keys the URL does
    not have, other than these two, are not added. *)
Theorem page_request_parameters
  (urlparse_query : string -> option string)
  (replace_query : string -> string -> string)
  (parse_qsl : string -> list (string * string))
  (urlencode : list (string * string) -> string)
  (resolved : string) (page : Z) (qs : Dict.t (V := string)) (url : string) :
  page_request urlparse_query replace_query parse_qsl urlencode resolved page
  = Ok (qs, url) ->
  exists query,
    urlparse_query resolved = Some query
    /\ url = replace_query resolved (urlencode qs)
    /\ values_of "page" qs = [PyStr.str_of_Z page]%list
    /\ values_of "per_page" qs = [per_page_text (parse_qsl query)]%list
    /\ (last_value (parse_qsl query) "per_page" = None ->
        per_page_text (parse_qsl query) = "10")
    /\ forall k, k <> "page" -> k <> "per_page" ->
         values_of k qs = match last_value (parse_qsl query) k with
                          | Some v => [v]%list
                          | None => nil
                          end.
Proof.
  unfold page_request.
  destruct (urlparse_query resolved) as [query|]; [|discriminate].
  cbn [or_raise bind]. intros [= <- <-].
  exists query. split; [reflexivity|]. split; [reflexivity|].
  pose proof (page_qs_NoDup (parse_qsl query) page) as N.
  rewrite !(values_of_get _ _ N), !page_qs_get.
  cbn [String.eqb Ascii.eqb Bool.eqb].
  repeat split.
  - unfold per_page_text. now intros ->.
  - intros k Hp Hpp. rewrite (values_of_get _ _ N), page_qs_get.
    apply String.eqb_neq in Hp, Hpp.
    now rewrite String.eqb_sym, Hp, String.eqb_sym, Hpp.
Qed.

Lemma page_request_parameters_witness :
  exists qs url,
    page_request Plain.urlparse_query Plain.replace_query Plain.parse_qsl
      Plain.urlencode
      "https://www.goodreads.com/review/list/1?shelf=read&sort=rating&page=7" 2
    = Ok (qs, url)
    /\ values_of "page" qs = ["2"]%list
    /\ values_of "per_page" qs = ["10"]%list
    /\ values_of "sort" qs = ["rating"]%list.
Proof.
  do 2 eexists. split; [reflexivity|].
  destruct (page_request_parameters Plain.urlparse_query Plain.replace_query
              Plain.parse_qsl Plain.urlencode
              "https://www.goodreads.com/review/list/1?shelf=read&sort=rating&page=7"
              2 _ _ eq_refl) as (query & Q & _ & P & PP & _ & O).
  injection Q as <-.
  split; [exact P|]. split; [exact PP|].
  apply (O "sort"); discriminate.
Defined.

(** ** The pagination loop *)

Section Loop.

Variable urlparse_path : string -> option string.
Variable urljoin : string -> string -> option string.
Variable urlparse_query : string -> option string.
Variable replace_query : string -> string -> string.
Variable parse_qsl : string -> list (string * string).
Variable urlencode : list (string * string) -> string.
Variable load_html : string -> option string.
Variable BeautifulSoup : string -> option node.

Local Abbreviation body :=
  (loop_body urlparse_path urljoin urlparse_query replace_query parse_qsl
             urlencode load_html BeautifulSoup).
Local Abbreviation loop :=
  (main_loop urlparse_path urljoin urlparse_query replace_query parse_qsl
             urlencode load_html BeautifulSoup).
Local Abbreviation records :=
  (fetch_page urlparse_path urljoin urlparse_query replace_query parse_qsl
              urlencode load_html BeautifulSoup).
Local Abbreviation url_of := (page_url replace_query parse_qsl urlencode).

Variable resolved query : string.
Hypothesis query_of_resolved : urlparse_query resolved = Some query.

(** One turn of the loop, read off the records of its page. *)
Lemma loop_body_turn (st : loop_state) :
  body resolved st
  = match records resolved (page st) with
    | Raise e => Raise e
    | Ok recs =>
        let log := (fetched st ++ [url_of resolved query (page st)])%list in
        match recs with
        | nil => Ok (Break, {| page := page st; all_books := all_books st;
                               fetched := log |})
        | _ =>
            let books := (all_books st ++ recs)%list in
            match PyStr.int (per_page_text (parse_qsl query)) with
            | None => Ok (Break, {| page := page st; all_books := books;
                                    fetched := log |})
            | Some per_page =>
                if Z.of_nat (List.length recs) <? per_page
                then Ok (Break, {| page := page st; all_books := books;
                                   fetched := log |})
                else Ok (Continue, {| page := page st + 1; all_books := books;
                                      fetched := log |})
            end
        end
    end.
Proof.
  unfold loop_body, fetch_page, page_request, page_url.
  rewrite query_of_resolved. cbn [or_raise bind fst snd].
  destruct (load_html _) as [html|]; [|reflexivity].
  cbn [or_raise bind].
  destruct (parse_shelf _ _ _ _ _) as [recs|e]; [|reflexivity].
  cbn [bind].
  destruct recs as [|r recs]; [reflexivity|].
  rewrite page_qs_get. cbn [String.eqb Ascii.eqb Bool.eqb or_raise bind].
  reflexivity.
Qed.

Lemma loop_break (fuel : nat) (st st' : loop_state) :
  body resolved st = Ok (Break, st') ->
  loop (S fuel) resolved st = Some (Ok st').
Proof.
  intros H. cbn [main_loop]. now rewrite H.
Qed.

Lemma loop_continue (fuel : nat) (st st' : loop_state) :
  body resolved st = Ok (Continue, st') ->
  loop (S fuel) resolved st = loop fuel resolved st'.
Proof.
  intros H. cbn [main_loop]. now rewrite H.
Qed.

(** C5: with per_page = 10 a turn of the loop stops without appending when
    its page has no record, stops after appending when the page has fewer
    than 10 records, and otherwise appends, adds one to [page] and goes on.
    So when pages 1, 2 and 3 have 10, 10 and 4 records the loop ends after
    exactly three fetches with the 24 records in page order, and when page
    1 has no record it ends after one fetch with no record. *)
Theorem pagination_per_page_10 :
  PyStr.int (per_page_text (parse_qsl query)) = Some 10 ->
  (forall st recs,
      records resolved (page st) = Ok recs ->
      let log := (fetched st ++ [url_of resolved query (page st)])%list in
      body resolved st
      = Ok (match recs with
            | nil => (Break, {| page := page st; all_books := all_books st;
                                fetched := log |})
            | _ =>
                if Z.of_nat (List.length recs) <? 10
                then (Break, {| page := page st;
                                all_books := (all_books st ++ recs)%list;
                                fetched := log |})
                else (Continue, {| page := page st + 1;
                                   all_books := (all_books st ++ recs)%list;
                                   fetched := log |})
            end))
  /\ (forall r1 r2 r3,
         records resolved 1 = Ok r1 -> List.length r1 = 10%nat ->
         records resolved 2 = Ok r2 -> List.length r2 = 10%nat ->
         records resolved 3 = Ok r3 -> List.length r3 = 4%nat ->
         forall extra,
           loop (3 + extra)%nat resolved loop_start
           = Some (Ok {| page := 3;
                         all_books := (r1 ++ r2 ++ r3)%list;
                         fetched := [url_of resolved query 1;
                                     url_of resolved query 2;
                                     url_of resolved query 3]%list |})
           /\ List.length (r1 ++ r2 ++ r3)%list = 24%nat)
  /\ (records resolved 1 = Ok nil ->
      forall extra,
        loop (1 + extra)%nat resolved loop_start
        = Some (Ok {| page := 1; all_books := nil;
                      fetched := [url_of resolved query 1]%list |})).
Proof.
  intros P.
  assert (turn : forall st recs,
             records resolved (page st) = Ok recs ->
             body resolved st
             = Ok (match recs with
                   | nil => (Break, {| page := page st; all_books := all_books st;
                                       fetched := (fetched st ++ [url_of resolved query (page st)])%list |})
                   | _ =>
                       if Z.of_nat (List.length recs) <? 10
                       then (Break, {| page := page st;
                                       all_books := (all_books st ++ recs)%list;
                                       fetched := (fetched st ++ [url_of resolved query (page st)])%list |})
                       else (Continue, {| page := page st + 1;
                                          all_books := (all_books st ++ recs)%list;
                                          fetched := (fetched st ++ [url_of resolved query (page st)])%list |})
                   end)).
  { intros st recs R. rewrite loop_body_turn, R, P.
    destruct recs as [|r recs]; [reflexivity|].
    now destruct (_ <? _). }
  split; [exact turn|]. split.
  - intros r1 r2 r3 R1 L1 R2 L2 R3 L3 extra. split.
    + change (3 + extra)%nat with (S (S (S extra))).
      pose proof (turn loop_start r1 R1) as T1.
      rewrite L1 in T1. destruct r1 as [|b1 r1]; [discriminate|].
      cbn [Z.of_nat Pos.of_succ_nat Pos.succ Z.ltb Z.compare Pos.compare
           Pos.compare_cont] in T1.
      rewrite (loop_continue _ _ _ T1).
      match goal with |- loop _ _ ?s = _ => pose proof (turn s r2 R2) as T2 end.
      rewrite L2 in T2. destruct r2 as [|b2 r2]; [discriminate|].
      cbn [Z.of_nat Pos.of_succ_nat Pos.succ Z.ltb Z.compare Pos.compare
           Pos.compare_cont page all_books fetched loop_start Z.add Pos.add app]
        in T2.
      rewrite (loop_continue _ _ _ T2).
      match goal with |- loop _ _ ?s = _ => pose proof (turn s r3 R3) as T3 end.
      rewrite L3 in T3. destruct r3 as [|b3 r3]; [discriminate|].
      cbn [Z.of_nat Pos.of_succ_nat Pos.succ Z.ltb Z.compare Pos.compare
           Pos.compare_cont page all_books fetched loop_start Z.add Pos.add app]
        in T3.
      rewrite (loop_break _ _ _ T3).
      cbn [app]. now rewrite <- app_assoc.
    + rewrite !length_app, L1, L2, L3. reflexivity.
  - intros R extra.
    change (1 + extra)%nat with (S extra).
    apply loop_break. exact (turn loop_start nil R).
Qed.

(** C10, amended: when the per_page that the rebuilt query keeps (the
    value of the last per_page pair that [parse_qsl] returns for the URL) is
    not a decimal integer for [int], and page 1 is fetched and parsed, the
    loop does not raise: it ends after that one turn with the records of
    page 1, however many they are. *)
Theorem pagination_per_page_not_a_number (v : string) (recs : list book) :
  last_value (parse_qsl query) "per_page" = Some v ->
  PyStr.int v = None ->
  records resolved 1 = Ok recs ->
  forall extra,
    loop (1 + extra)%nat resolved loop_start
    = Some (Ok {| page := 1; all_books := recs;
                  fetched := [url_of resolved query 1]%list |}).
Proof.
  intros V I R extra.
  change (1 + extra)%nat with (S extra).
  apply loop_break.
  rewrite loop_body_turn.
  change (page loop_start) with 1. rewrite R.
  unfold per_page_text. rewrite V, I.
  now destruct recs.
Qed.

End Loop.

Lemma pagination_per_page_10_witness :
  exists st,
    main_loop Plain.urlparse_path Plain.urljoin Plain.urlparse_query
              Plain.replace_query Plain.parse_qsl Plain.urlencode
              Sample.load_html Sample.BeautifulSoup 3 Sample.shelf loop_start
    = Some (Ok st)
    /\ page st = 3
    /\ List.length (all_books st) = 24%nat
    /\ fetched st
       = ["https://www.goodreads.com/review/list/162248230?shelf=read&per_page=10&page=1";
          "https://www.goodreads.com/review/list/162248230?shelf=read&per_page=10&page=2";
          "https://www.goodreads.com/review/list/162248230?shelf=read&per_page=10&page=3"]%list.
Proof.
  pose (records :=
          fun p =>
            match fetch_page Plain.urlparse_path Plain.urljoin
                    Plain.urlparse_query Plain.replace_query Plain.parse_qsl
                    Plain.urlencode Sample.load_html Sample.BeautifulSoup
                    Sample.shelf p with
            | Ok r => r
            | Raise _ => nil
            end).
  destruct (pagination_per_page_10
              Plain.urlparse_path Plain.urljoin Plain.urlparse_query
              Plain.replace_query Plain.parse_qsl Plain.urlencode
              Sample.load_html Sample.BeautifulSoup
              Sample.shelf "shelf=read" eq_refl eq_refl) as (_ & three & _).
  destruct (three (records 1) (records 2) (records 3)
              ltac:(vm_compute; reflexivity) ltac:(vm_compute; reflexivity)
              ltac:(vm_compute; reflexivity) ltac:(vm_compute; reflexivity)
              ltac:(vm_compute; reflexivity) ltac:(vm_compute; reflexivity)
              0%nat) as (run & total).
  eexists. split; [exact run|].
  split; [reflexivity|]. split; [exact total|reflexivity].
Defined.

(** C10, as stated, fails: a URL can carry a per_page that is not a
    decimal integer and the loop still goes on after a full first page.
    [parse_qsl] drops a per_page without value, so the default 10 is used;
    and of two per_page the dictionary keeps the last, here 10. *)
Lemma pagination_unread_per_page :
  PyStr.int "" = None
  /\ PyStr.int "abc" = None
  /\ (exists st,
        loop_body Plain.urlparse_path Plain.urljoin Plain.urlparse_query
                  Plain.replace_query Plain.parse_qsl Plain.urlencode
                  Sample.load_html Sample.twelve_rows
                  SampleRuns.blank_shelf loop_start
        = Ok (Continue, st)
        /\ page st = 2)
  /\ main_loop Plain.urlparse_path Plain.urljoin Plain.urlparse_query
               Plain.replace_query Plain.parse_qsl Plain.urlencode
               Sample.load_html Sample.twelve_rows
               1 SampleRuns.blank_shelf loop_start
     = None
  /\ (exists st,
        loop_body Plain.urlparse_path Plain.urljoin Plain.urlparse_query
                  Plain.replace_query Plain.parse_qsl Plain.urlencode
                  Sample.load_html Sample.twelve_rows
                  SampleRuns.twice_shelf loop_start
        = Ok (Continue, st)
        /\ page st = 2).
Proof.
  split; [reflexivity|]. split; [reflexivity|].
  split; [eexists; vm_compute; split; reflexivity|].
  split; [vm_compute; reflexivity|].
  eexists. vm_compute. split; reflexivity.
Qed.

Lemma pagination_per_page_not_a_number_witness :
  exists recs,
    main_loop Plain.urlparse_path Plain.urljoin Plain.urlparse_query
              Plain.replace_query Plain.parse_qsl Plain.urlencode
              Sample.load_html Sample.twelve_rows 1 Sample.odd_shelf loop_start
    = Some (Ok {| page := 1; all_books := recs;
                  fetched := ["https://www.goodreads.com/review/list/162248230?shelf=read&per_page=all&page=1"]%list |})
    /\ List.length recs = 12%nat.
Proof.
  eexists. split.
  - refine (pagination_per_page_not_a_number
              Plain.urlparse_path Plain.urljoin Plain.urlparse_query
              Plain.replace_query Plain.parse_qsl Plain.urlencode
              Sample.load_html Sample.twelve_rows
              Sample.odd_shelf "shelf=read&per_page=all" eq_refl
              "all" _ eq_refl eq_refl _ 0%nat).
    vm_compute. reflexivity.
  - vm_compute. reflexivity.
Defined.

(* ------------------------------------------------------------------ *)
(** * Further properties of the script *)

(** ** Integers written in decimal digits *)

Lemma digit_value_range (c : ascii) :
  PyStr.isdecimal c = true -> 0 <= digit_value c <= 9.
Proof.
  unfold PyStr.isdecimal, digit_value. intros H.
  apply andb_true_iff in H as [L U]. lia.
Qed.

Lemma lstrip_head_not (sp : ascii -> bool) (s : string) :
  head_not sp s = true -> PyStr.lstrip_by sp s = s.
Proof.
  destruct s as [|c s]; [reflexivity|]. cbn [head_not PyStr.lstrip_by].
  intros H. apply negb_true_iff in H. now rewrite H.
Qed.

Lemma rstrip_last_not (sp : ascii -> bool) (s : string) :
  last_not sp s = true -> PyStr.rstrip_by sp s = s.
Proof.
  induction s as [|c s IH]; [reflexivity|].
  cbn [last_not PyStr.rstrip_by]. destruct s as [|d s].
  - intros H. apply negb_true_iff in H. cbn [PyStr.rstrip_by]. now rewrite H.
  - intros H. rewrite (IH H). reflexivity.
Qed.

Lemma all_decimal_head_not (s : string) :
  PyStr.all_chars PyStr.isdecimal s = true -> head_not PyStr.int_space s = true.
Proof.
  destruct s as [|c s]; [reflexivity|]. cbn [PyStr.all_chars head_not].
  intros H. apply andb_true_iff in H as [H _].
  now rewrite (proj1 (decimal_not_space c H)).
Qed.

Lemma all_decimal_last_not (s : string) :
  PyStr.all_chars PyStr.isdecimal s = true -> last_not PyStr.int_space s = true.
Proof.
  induction s as [|c s IH]; [reflexivity|]. cbn [PyStr.all_chars last_not].
  intros H. apply andb_true_iff in H as [Hc H].
  destruct s as [|d s]; [|now apply IH].
  now rewrite (proj1 (decimal_not_space c Hc)).
Qed.

Lemma count_all_decimal (s : string) :
  PyStr.all_chars PyStr.isdecimal s = true ->
  PyStr.count_chars PyStr.isdecimal s = Z.of_nat (String.length s).
Proof.
  induction s as [|c s IH]; [reflexivity|].
  cbn [PyStr.all_chars PyStr.count_chars String.length].
  intros H. apply andb_true_iff in H as [Hc H]. rewrite Hc, (IH H). lia.
Qed.

Lemma int_digits_all_decimal (s : string) :
  PyStr.all_chars PyStr.isdecimal s = true ->
  forall acc, PyStr.int_digits true acc s = Some (decimal_value acc s).
Proof.
  induction s as [|c s IH]; intros H acc; [reflexivity|].
  cbn [PyStr.all_chars] in H. apply andb_true_iff in H as [Hc H].
  cbn [PyStr.int_digits decimal_value]. rewrite Hc.
  unfold digit_value. now apply IH.
Qed.

(** [int] on a non-empty string of decimal digits: its value, unless the
    digits are more than [int_max_str_digits]. *)
Lemma int_all_decimal (s : string) :
  PyStr.truthy s = true ->
  PyStr.all_chars PyStr.isdecimal s = true ->
  PyStr.int s
  = if PyStr.int_max_str_digits <? Z.of_nat (String.length s) then None
    else Some (decimal_value 0 s).
Proof.
  intros T H. unfold PyStr.int.
  rewrite (lstrip_head_not _ _ (all_decimal_head_not _ H)).
  rewrite (rstrip_last_not _ _ (all_decimal_last_not _ H)).
  rewrite (count_all_decimal _ H).
  destruct (_ <? _); [reflexivity|].
  destruct s as [|c s]; [discriminate|].
  cbn [PyStr.all_chars] in H. apply andb_true_iff in H as [Hc H].
  assert (E : PyStr.int_digits false 0 (String c s)
              = Some (decimal_value 0 (String c s))).
  { cbn [PyStr.int_digits decimal_value]. rewrite Hc.
    unfold digit_value. now apply int_digits_all_decimal. }
  destruct (decimal_not_space c Hc) as (_ & M & P).
  destruct c as [c0 c1 c2 c3 c4 c5 c6 c7].
  destruct c0, c1, c2, c3, c4, c5, c6, c7; try discriminate; exact E.
Qed.

Lemma decimal_value_nonneg (s : string) :
  PyStr.all_chars PyStr.isdecimal s = true ->
  forall acc, 0 <= acc -> 0 <= decimal_value acc s.
Proof.
  induction s as [|c s IH]; intros H acc A; [exact A|].
  cbn [PyStr.all_chars] in H. apply andb_true_iff in H as [Hc H].
  cbn [decimal_value]. apply (IH H).
  pose proof (digit_value_range c Hc). lia.
Qed.

(** ** [extract_int_from_text] *)

Lemma take_while_all (p : ascii -> bool) (s : string) :
  PyStr.all_chars p (Re.take_while p s) = true.
Proof.
  induction s as [|c s IH]; [reflexivity|]. cbn [Re.take_while].
  destruct (p c) eqn:E; [|reflexivity]. cbn [PyStr.all_chars]. now rewrite E.
Qed.

(** Every match of [\d+] is a non-empty string of decimal digits. *)
Lemma findall_digits_runs (text : string) :
  Forall (fun r => PyStr.truthy r = true
                   /\ PyStr.all_chars PyStr.isdecimal r = true)
         (Re.findall_digits text).
Proof.
  induction text as [|c rest IH]; [constructor|].
  cbn [Re.findall_digits].
  destruct (PyStr.isdecimal c) eqn:C; [|exact IH].
  assert (R : PyStr.truthy (String c (Re.take_while PyStr.isdecimal rest)) = true
              /\ PyStr.all_chars PyStr.isdecimal
                   (String c (Re.take_while PyStr.isdecimal rest)) = true).
  { split; [reflexivity|]. cbn [PyStr.all_chars].
    now rewrite C, take_while_all. }
  destruct rest as [|d rest']; [now constructor|].
  destruct (PyStr.isdecimal d).
  - destruct (Re.findall_digits (String d rest')) as [|r runs];
      [now constructor|].
    inversion IH; subst. now constructor.
  - now constructor.
Qed.

Lemma findall_digits_none (text : string) :
  PyStr.all_chars no_decimal text = true -> Re.findall_digits text = nil.
Proof.
  induction text as [|c rest IH]; [reflexivity|].
  cbn [PyStr.all_chars Re.findall_digits]. intros H.
  apply andb_true_iff in H as [Hc H]. apply negb_true_iff in Hc.
  rewrite Hc. now apply IH.
Qed.

Lemma remove_char_all (p : ascii -> bool) (x : ascii) (s : string) :
  PyStr.all_chars p s = true -> PyStr.all_chars p (PyStr.remove_char x s) = true.
Proof.
  induction s as [|c s IH]; [reflexivity|].
  cbn [PyStr.all_chars PyStr.remove_char]. intros H.
  apply andb_true_iff in H as [Hc H].
  destruct (Ascii.eqb c x); [now apply IH|].
  cbn [PyStr.all_chars]. now rewrite Hc, IH.
Qed.

(** X6: The integer of a cell is never negative and never a default: it is
    the value of the first run of decimal digits of the text without its
    commas. *)
Theorem extract_int_first_run (text : option string) (n : Z) :
  extract_int_from_text text = Some n ->
  0 <= n
  /\ exists t run runs,
       text = Some t
       /\ Re.findall_digits (PyStr.remove_char "," t) = (run :: runs)%list
       /\ PyStr.all_chars PyStr.isdecimal run = true
       /\ n = decimal_value 0 run.
Proof.
  unfold extract_int_from_text.
  destruct text as [t|]; [|discriminate].
  destruct (PyStr.truthy t); [|discriminate]. cbn [negb].
  pose proof (findall_digits_runs (PyStr.remove_char "," t)) as F.
  destruct (Re.findall_digits _) as [|run runs] eqn:R; [discriminate|].
  inversion F as [|? ? (T & D) _]; subst.
  rewrite (int_all_decimal _ T D).
  destruct (_ <? _); [discriminate|]. intros [= <-].
  split; [apply (decimal_value_nonneg _ D); lia|].
  exists t, run, runs. repeat split; assumption.
Qed.

Lemma extract_int_first_run_witness :
  0 <= 1352
  /\ exists t run runs,
       Some "about 1,352 pp, 2 vols" = Some t
       /\ Re.findall_digits (PyStr.remove_char "," t) = (run :: runs)%list
       /\ PyStr.all_chars PyStr.isdecimal run = true
       /\ 1352 = decimal_value 0 run.
Proof.
  exact (extract_int_first_run (Some "about 1,352 pp, 2 vols") 1352 eq_refl).
Defined.

(** X7: A cell without any decimal digit has no integer: the result is [None],
    as it is for an absent or empty text. *)
Theorem extract_int_no_digit (t : string) :
  PyStr.all_chars no_decimal t = true ->
  extract_int_from_text (Some t) = None
  /\ extract_int_from_text None = None.
Proof.
  intros H. split; [|reflexivity]. unfold extract_int_from_text.
  destruct (PyStr.truthy t); [|reflexivity]. cbn [negb].
  now rewrite (findall_digits_none _ (remove_char_all _ _ _ H)).
Qed.

Lemma extract_int_no_digit_witness :
  extract_int_from_text (Some "unknown, n/a") = None
  /\ extract_int_from_text None = None.
Proof.
  exact (extract_int_no_digit "unknown, n/a" eq_refl).
Defined.

Lemma take_while_id (p : ascii -> bool) (s : string) :
  PyStr.all_chars p s = true -> Re.take_while p s = s.
Proof.
  induction s as [|c s IH]; [reflexivity|]. cbn [PyStr.all_chars Re.take_while].
  intros H. apply andb_true_iff in H as [Hc H]. now rewrite Hc, IH.
Qed.

Lemma findall_digits_all_decimal (s : string) :
  PyStr.truthy s = true ->
  PyStr.all_chars PyStr.isdecimal s = true ->
  Re.findall_digits s = [s]%list.
Proof.
  induction s as [|c rest IH]; [discriminate|]. intros _ H.
  cbn [PyStr.all_chars] in H. apply andb_true_iff in H as [Hc H].
  cbn [Re.findall_digits]. rewrite Hc, (take_while_id _ _ H).
  destruct rest as [|d rest']; [reflexivity|].
  rewrite (IH eq_refl H).
  cbn [PyStr.all_chars] in H. apply andb_true_iff in H as [Hd _].
  now rewrite Hd.
Qed.

Lemma remove_commas_decimal (t : string) :
  PyStr.all_chars decimal_or_comma t = true ->
  PyStr.all_chars PyStr.isdecimal (PyStr.remove_char "," t) = true.
Proof.
  induction t as [|c t IH]; [reflexivity|].
  cbn [PyStr.all_chars PyStr.remove_char]. intros H.
  apply andb_true_iff in H as [Hc H]. unfold decimal_or_comma, is_comma in Hc.
  destruct (Ascii.eqb c ","); [now apply IH|].
  rewrite orb_false_r in Hc. cbn [PyStr.all_chars]. now rewrite Hc, IH.
Qed.

(** X8: Commas are thousands separators wherever they stand: a text made of
    decimal digits and commas, with at least one digit, is read as the one
    number its digits write. *)
Theorem extract_int_commas (t : string) :
  PyStr.all_chars decimal_or_comma t = true ->
  PyStr.truthy (PyStr.remove_char "," t) = true ->
  extract_int_from_text (Some t) = PyStr.int (PyStr.remove_char "," t).
Proof.
  intros H T. unfold extract_int_from_text.
  assert (Tt : PyStr.truthy t = true) by (destruct t; [discriminate|reflexivity]).
  rewrite Tt. cbn [negb].
  rewrite (findall_digits_all_decimal _ T (remove_commas_decimal _ H)).
  now destruct (PyStr.int _).
Qed.

Lemma extract_int_commas_witness :
  extract_int_from_text (Some "1,024,000") = Some 1024000
  /\ extract_int_from_text (Some "19,99") = Some 1999.
Proof.
  split.
  - exact (extract_int_commas "1,024,000" eq_refl eq_refl).
  - exact (extract_int_commas "19,99" eq_refl eq_refl).
Defined.

(** ** [extract_year_from_date] *)

Lemma search_d4_step (a b c d : ascii) (rest : string) :
  Re.search_d4 (String a (String b (String c (String d rest))))
  = if PyStr.isdecimal a && PyStr.isdecimal b
       && PyStr.isdecimal c && PyStr.isdecimal d
    then Some (String a (String b (String c (String d ""))))
    else Re.search_d4 (String b (String c (String d rest))).
Proof. reflexivity. Qed.

Lemma search_d4_digits (text g : string) :
  Re.search_d4 text = Some g ->
  exists a b c d,
    g = String a (String b (String c (String d "")))
    /\ PyStr.isdecimal a = true /\ PyStr.isdecimal b = true
    /\ PyStr.isdecimal c = true /\ PyStr.isdecimal d = true.
Proof.
  induction text as [|a rest IH]; [discriminate|].
  destruct rest as [|b [|c [|d rest']]]; try discriminate.
  rewrite search_d4_step.
  destruct (PyStr.isdecimal a) eqn:A; [|exact IH].
  destruct (PyStr.isdecimal b) eqn:B; [|exact IH].
  destruct (PyStr.isdecimal c) eqn:C; [|exact IH].
  destruct (PyStr.isdecimal d) eqn:D; [|exact IH].
  cbn [andb]. intros [= <-]. now exists a, b, c, d.
Qed.

(** X10: A year, when there is one, lies between 0 and 9999. *)
Theorem extract_year_range (text : option string) (y : Z) :
  extract_year_from_date text = Some y -> 0 <= y <= 9999.
Proof.
  unfold extract_year_from_date.
  destruct text as [t|]; [|discriminate].
  destruct (PyStr.truthy t); [|discriminate]. cbn [negb].
  destruct (Re.search_d4 t) as [g|] eqn:S; [|discriminate].
  destruct (search_d4_digits _ _ S) as (a & b & c & d & -> & A & B & C & D).
  rewrite (int_d4 _ _ _ _ A B C D). intros E.
  assert (E' : y = 1000 * digit_value a + 100 * digit_value b
                   + 10 * digit_value c + digit_value d) by congruence.
  pose proof (digit_value_range a A). pose proof (digit_value_range b B).
  pose proof (digit_value_range c C). pose proof (digit_value_range d D).
  lia.
Qed.

Lemma extract_year_range_witness : 0 <= 2025 <= 9999.
Proof.
  exact (extract_year_range (Some "Mar 18, 2025") 2025 eq_refl).
Defined.

Lemma search_d4_extend (text more g : string) :
  Re.search_d4 text = Some g -> Re.search_d4 (text ++ more) = Some g.
Proof.
  induction text as [|a rest IH]; [discriminate|].
  destruct rest as [|b [|c [|d rest']]]; try discriminate.
  change (String a (String b (String c (String d rest'))) ++ more)
    with (String a (String b (String c (String d (rest' ++ more))))).
  rewrite !search_d4_step.
  destruct (_ && _ && _ && _); [trivial|].
  intros H. exact (IH H).
Qed.

(** X11: Text that comes after a date never changes its year: the first four
    consecutive digits decide. *)
Theorem extract_year_extend (t more : string) (y : Z) :
  extract_year_from_date (Some t) = Some y ->
  extract_year_from_date (Some (t ++ more)) = Some y.
Proof.
  unfold extract_year_from_date.
  destruct t as [|c t]; [discriminate|].
  cbn [PyStr.truthy negb append].
  destruct (Re.search_d4 (String c t)) as [g|] eqn:S; [|discriminate].
  change (String c (t ++ more)) with (String c t ++ more).
  now rewrite (search_d4_extend _ more _ S).
Qed.

Lemma extract_year_extend_witness :
  extract_year_from_date (Some ("Mar 18, 2025" ++ " (first published 1689)"))
  = Some 2025.
Proof.
  exact (extract_year_extend "Mar 18, 2025" " (first published 1689)" 2025 eq_refl).
Defined.

(** ** [extract_external_id] *)

Lemma prefix_app (p s : string) :
  prefix p s = true -> exists r, s = p ++ r.
Proof.
  revert s. induction p as [|c p IH]; intros s H.
  - now exists s.
  - destruct s as [|d s]; [discriminate|]. cbn [prefix] in H.
    destruct (ascii_dec c d) as [<-|]; [|discriminate].
    destruct (IH _ H) as (r & ->). now exists r.
Qed.

Lemma take_while_split (p : ascii -> bool) (s : string) :
  exists post, s = Re.take_while p s ++ post /\ head_not p post = true.
Proof.
  induction s as [|c s (post & E & H)].
  - now exists "".
  - cbn [Re.take_while]. destruct (p c) eqn:C.
    + exists post. split; [|exact H]. cbn [append]. now rewrite <- E.
    + exists (String c s). split; [reflexivity|]. cbn [head_not]. now rewrite C.
Qed.

Lemma search_book_show_step (c : ascii) (rest : string) :
  Re.search_book_show (String c rest)
  = if prefix "/book/show/" (String c rest) then
      let ds := Re.take_while PyStr.isdecimal (Re.drop 11 (String c rest)) in
      if PyStr.truthy ds then Some ds else Re.search_book_show rest
    else Re.search_book_show rest.
Proof. reflexivity. Qed.

(** What [/book/show/(\d+)] finds in a path: a non-empty run of decimal
    digits that stands right after [/book/show/] and is followed by no
    further digit. *)
Lemma search_book_show_found (path id : string) :
  Re.search_book_show path = Some id ->
  PyStr.truthy id = true
  /\ PyStr.all_chars PyStr.isdecimal id = true
  /\ exists pre post,
       path = pre ++ "/book/show/" ++ id ++ post
       /\ head_not PyStr.isdecimal post = true.
Proof.
  induction path as [|c rest IH]; [discriminate|].
  rewrite search_book_show_step.
  assert (skip : Re.search_book_show rest = Some id ->
                 PyStr.truthy id = true
                 /\ PyStr.all_chars PyStr.isdecimal id = true
                 /\ exists pre post,
                      String c rest = pre ++ "/book/show/" ++ id ++ post
                      /\ head_not PyStr.isdecimal post = true).
  { intros H. destruct (IH H) as (T & D & pre & post & -> & P).
    repeat split; try assumption. now exists (String c pre), post. }
  destruct (prefix "/book/show/" (String c rest)) eqn:P; [|exact skip].
  apply prefix_app in P as (r & E). rewrite E.
  change (Re.drop 11 ("/book/show/" ++ r)) with r.
  cbv zeta.
  destruct (PyStr.truthy (Re.take_while PyStr.isdecimal r)) eqn:T;
    [|intros H; rewrite <- E; exact (skip H)].
  intros [= <-].
  split; [exact T|]. split; [apply take_while_all|].
  destruct (take_while_split PyStr.isdecimal r) as (post & R & H).
  exists "", post. split; [|exact H]. cbn [append]. now rewrite <- R.
Qed.

(** X4: An external id, when there is one, is a non-empty string of decimal
    digits: the whole run that follows a [/book/show/] in the path of the
    href. *)
Theorem extract_external_id_digits
  (urlparse_path : string -> option string) (book_href id : string) :
  extract_external_id urlparse_path book_href = Ok (Some id) ->
  PyStr.truthy id = true
  /\ PyStr.all_chars PyStr.isdecimal id = true
  /\ exists path pre post,
       urlparse_path book_href = Some path
       /\ path = pre ++ "/book/show/" ++ id ++ post
       /\ head_not PyStr.isdecimal post = true.
Proof.
  unfold extract_external_id.
  destruct (PyStr.truthy book_href); cbn [negb]; [|discriminate].
  destruct (urlparse_path book_href) as [path|]; [|discriminate].
  cbn [or_raise bind]. intros [= H].
  destruct (search_book_show_found _ _ H) as (T & D & pre & post & E & P).
  repeat split; try assumption. now exists path, pre, post.
Qed.

Lemma extract_external_id_digits_witness :
  PyStr.truthy "364549" = true
  /\ PyStr.all_chars PyStr.isdecimal "364549" = true
  /\ exists path pre post,
       Plain.urlparse_path "/book/show/364549.A_Letter" = Some path
       /\ path = pre ++ "/book/show/" ++ "364549" ++ post
       /\ head_not PyStr.isdecimal post = true.
Proof.
  exact (extract_external_id_digits Plain.urlparse_path
           "/book/show/364549.A_Letter" "364549" eq_refl).
Defined.

(** X5: The empty href has no id and is never handed to [urlparse]; any other
    href raises exactly when [urlparse] does, and then [ValueError]. *)
Theorem extract_external_id_errors
  (urlparse_path : string -> option string) :
  extract_external_id urlparse_path "" = Ok None
  /\ forall book_href e,
       extract_external_id urlparse_path book_href = Raise e
       <-> (e = ValueError /\ PyStr.truthy book_href = true
            /\ urlparse_path book_href = None).
Proof.
  split; [reflexivity|]. intros book_href e. unfold extract_external_id.
  destruct (PyStr.truthy book_href); cbn [negb].
  - destruct (urlparse_path book_href) as [path|]; cbn [or_raise bind].
    + split; [discriminate|]. now intros (_ & _ & ?).
    + split; [intros [= <-]; now repeat split|]. now intros (-> & _).
  - split; [discriminate|]. now intros (_ & ? & _).
Qed.

(** ** [resolve_input] and the branches of [main] *)

Lemma shelf_url_not_digits (id : string) :
  PyStr.isdigit (shelf_url_of id) = false.
Proof. reflexivity. Qed.

Lemma shelf_url_is_shelf (id : string) :
  contains "goodreads.com/review/list" (shelf_url_of id) = true.
Proof. reflexivity. Qed.

(** X1: Resolving is idempotent, whatever files exist: a resolved input
    resolves to itself. *)
Theorem resolve_input_idempotent (path_exists : string -> bool) (raw : string) :
  resolve_input path_exists (resolve_input path_exists raw)
  = resolve_input path_exists raw.
Proof.
  assert (same : forall s : string,
             (if PyStr.startswith s "http://" || PyStr.startswith s "https://"
              then s else s) = s)
    by (intros s; now destruct (_ || _)).
  destruct (path_exists raw) eqn:F.
  - assert (E : resolve_input path_exists raw = raw)
      by (unfold resolve_input; now rewrite F).
    now rewrite !E.
  - destruct (PyStr.isdigit raw) eqn:D.
    + assert (E : resolve_input path_exists raw = shelf_url_of raw)
        by (unfold resolve_input; now rewrite F, D).
      rewrite !E. unfold resolve_input.
      rewrite shelf_url_not_digits, same.
      now destruct (path_exists (shelf_url_of raw)).
    + assert (E : resolve_input path_exists raw = raw)
        by (unfold resolve_input; now rewrite F, D, same).
      now rewrite !E.
Qed.

Section Branches.

Variable path_exists : string -> bool.
Variable urlparse_path : string -> option string.
Variable urljoin : string -> string -> option string.
Variable urlparse_query : string -> option string.
Variable replace_query : string -> string -> string.
Variable parse_qsl : string -> list (string * string).
Variable urlencode : list (string * string) -> string.
Variable load_html : string -> option string.
Variable BeautifulSoup : string -> option node.

Local Abbreviation run :=
  (main path_exists urlparse_path urljoin urlparse_query replace_query
        parse_qsl urlencode load_html BeautifulSoup).
Local Abbreviation loop :=
  (main_loop urlparse_path urljoin urlparse_query replace_query parse_qsl
             urlencode load_html BeautifulSoup).
Local Abbreviation once :=
  (parse_once urlparse_path urljoin load_html BeautifulSoup).

(** X2: A user id that names no file is paginated: [main] runs the loop on
    the shelf URL of the id (unless a file has that URL for its name), and
    its books are those the loop has accumulated. *)
Theorem main_user_id (raw : string) (fuel : nat) :
  path_exists raw = false ->
  PyStr.isdigit raw = true ->
  path_exists (shelf_url_of raw) = false ->
  run raw fuel
  = match loop fuel (shelf_url_of raw) loop_start with
    | Some (Ok st) => Some (Ok (all_books st))
    | Some (Raise e) => Some (Raise e)
    | None => None
    end.
Proof.
  intros F D U. unfold main, resolve_input. rewrite F, D.
  fold (shelf_url_of raw). now rewrite U, shelf_url_is_shelf.
Qed.

(** X3: An existing local file is parsed once and never paginated, even when
    its name looks like a shelf URL; so is any other input that is not a
    user id and does not contain [goodreads.com/review/list]. *)
Theorem main_single_parse (raw : string) (fuel : nat) :
  path_exists raw = true
  \/ (PyStr.isdigit raw = false
      /\ contains "goodreads.com/review/list" raw = false) ->
  run raw fuel = Some (once raw).
Proof.
  intros [F|(D & C)]; unfold main, resolve_input.
  - now rewrite F, F.
  - destruct (path_exists raw) eqn:F; [now rewrite F|].
    rewrite D.
    assert (E : (if PyStr.startswith raw "http://"
                    || PyStr.startswith raw "https://" then raw else raw) = raw)
      by now destruct (_ || _).
    rewrite E. now rewrite F, C.
Qed.

End Branches.

Lemma main_user_id_witness :
  main Plain.no_file Plain.urlparse_path Plain.urljoin Plain.urlparse_query
       Plain.replace_query Plain.parse_qsl Plain.urlencode
       Sample.load_html Sample.BeautifulSoup "162248230" 3
  = match main_loop Plain.urlparse_path Plain.urljoin Plain.urlparse_query
            Plain.replace_query Plain.parse_qsl Plain.urlencode
            Sample.load_html Sample.BeautifulSoup 3
            (shelf_url_of "162248230") loop_start with
    | Some (Ok st) => Some (Ok (all_books st))
    | Some (Raise e) => Some (Raise e)
    | None => None
    end.
Proof.
  exact (main_user_id Plain.no_file Plain.urlparse_path Plain.urljoin
           Plain.urlparse_query Plain.replace_query Plain.parse_qsl
           Plain.urlencode Sample.load_html Sample.BeautifulSoup
           "162248230" 3 eq_refl eq_refl eq_refl).
Defined.

Lemma main_single_parse_witness :
  main (String.eqb "goodreads.com/review/list.html")
       Plain.urlparse_path Plain.urljoin Plain.urlparse_query
       Plain.replace_query Plain.parse_qsl Plain.urlencode
       Sample.load_html Sample.twelve_rows "goodreads.com/review/list.html" 0
  = Some (parse_once Plain.urlparse_path Plain.urljoin
                     Sample.load_html Sample.twelve_rows
                     "goodreads.com/review/list.html").
Proof.
  exact (main_single_parse (String.eqb "goodreads.com/review/list.html")
           Plain.urlparse_path Plain.urljoin Plain.urlparse_query
           Plain.replace_query Plain.parse_qsl Plain.urlencode
           Sample.load_html Sample.twelve_rows
           "goodreads.com/review/list.html" 0 (or_introl eq_refl)).
Defined.

(** ** [parse_shelf]: errors, and what the records depend on *)

Section Records.

Variable urlparse_path : string -> option string.
Variable urljoin : string -> string -> option string.
Variable shelf_url : option string.

Local Abbreviation values := (row_values urlparse_path urljoin shelf_url).
Local Abbreviation rows_loop := (parse_rows urlparse_path urljoin shelf_url).
Local Abbreviation accepted := (well_formed urlparse_path urljoin shelf_url).
Local Abbreviation refused := (bad_href urlparse_path urljoin shelf_url).

Lemma row_values_refused (row : node) :
  refused row = true -> values row = Raise ValueError.
Proof.
  unfold bad_href, has_title_link, well_formed, title_link, row_values,
    href_parses, extract_external_id.
  destruct (find row "td" _) as [td|]; [|discriminate].
  destruct (find td "a" _) as [link|]; [|discriminate].
  cbn [andb]. intros H. apply negb_true_iff, andb_false_iff in H.
  destruct (PyStr.truthy (PyStr.or_empty shelf_url) && _).
  - destruct (urljoin _ _) as [u|]; [|reflexivity]. cbn [or_raise bind].
    destruct H as [H|H]; [discriminate|].
    destruct (PyStr.truthy (getitem link "href")); [|discriminate].
    cbn [negb]. now destruct (urlparse_path _).
  - cbn [bind]. destruct H as [H|H]; [discriminate|].
    destruct (PyStr.truthy (getitem link "href")); [|discriminate].
    cbn [negb]. now destruct (urlparse_path _).
Qed.

Lemma refused_or_not (row : node) :
  refused row = false ->
  (has_title_link row = false /\ values row = Ok None)
  \/ (has_title_link row = true /\ exists v, values row = Ok (Some v)).
Proof.
  unfold bad_href. intros H. apply andb_false_iff in H as [H|H].
  - left. split; [exact H|]. now apply row_values_skip.
  - apply negb_false_iff in H. right.
    destruct (row_values_well_formed _ _ _ _ H) as (v & V).
    split; [exact (row_values_has_link _ _ _ _ _ V)|now exists v].
Qed.

(** The record of a row does not depend on the URL library. *)
Lemma row_values_row_record (row : node) (v : row_locals) :
  values row = Ok (Some v) -> row_record row = Some (book_obj v).
Proof.
  intros V.
  destruct (row_values_record _ _ _ _ _ V)
    as ((link & L & T) & S & A & P & C & _).
  unfold row_record, book_obj. now rewrite L, S, T, A, P, C.
Qed.

Lemma row_record_skip (row : node) :
  has_title_link row = false -> row_record row = None.
Proof.
  unfold has_title_link, row_record. now destruct (title_link row).
Qed.

Lemma parse_rows_result (rows : list node) :
  forall acc,
    rows_loop rows acc
    = if existsb refused rows then Raise ValueError
      else Ok (acc ++ flat_map (fun row => match row_record row with
                                           | Some b => [b]
                                           | None => nil
                                           end) rows)%list.
Proof.
  induction rows as [|row rows IH]; intros acc.
  - cbn. now rewrite app_nil_r.
  - cbn [parse_rows existsb flat_map].
    destruct (refused row) eqn:R.
    + now rewrite (row_values_refused _ R).
    + destruct (refused_or_not _ R) as [(H & V)|(H & v & V)]; rewrite V;
        cbn [bind orb]; rewrite IH.
      * now rewrite (row_record_skip _ H).
      * rewrite (row_values_row_record _ _ V). now rewrite <- app_assoc.
Qed.

End Records.

Lemma well_formed_has_link
  (urlparse_path : string -> option string)
  (urljoin : string -> string -> option string)
  (shelf_url : option string) (row : node) :
  well_formed urlparse_path urljoin shelf_url row = true ->
  has_title_link row = true.
Proof.
  unfold well_formed, has_title_link. now destruct (title_link row).
Qed.

Lemma all_well_formed
  (urlparse_path : string -> option string)
  (urljoin : string -> string -> option string)
  (shelf_url : option string) (rows : list node) :
  forallb (well_formed urlparse_path urljoin shelf_url) rows = true ->
  existsb (bad_href urlparse_path urljoin shelf_url) rows = false
  /\ filter has_title_link rows = rows.
Proof.
  induction rows as [|row rows IH]; [now split|].
  cbn [forallb existsb filter]. intros H.
  apply andb_true_iff in H as [W H]. destruct (IH H) as (E & F).
  unfold bad_href at 1.
  rewrite W, (well_formed_has_link _ _ _ _ W), E, F. now split.
Qed.

(** The titles of the records of a page are the stripped texts of the
    title links of its rows, in page order. *)
Lemma page_records_titles (soup : node) :
  map title_of (page_records soup)
  = map (fun row => Some (JStr (row_title row)))
        (filter has_title_link (entry_rows soup)).
Proof.
  unfold page_records.
  induction (entry_rows soup) as [|row rows IH]; [reflexivity|].
  cbn [flat_map filter].
  unfold row_record at 1, has_title_link at 1, row_title.
  destruct (title_link row) as [link|] eqn:L; [|exact IH].
  cbn [app map]. rewrite IH. unfold row_title. now rewrite L.
Qed.

(** C7, amended: every record has a title that is not null: it is the
    stripped visible text of the title link of its row, and is the empty
    string when the link has no text.  The records are, in page order,
    those of the rows that have a title cell with a hyperlink, so a row
    without one gives no record.  And a page that the parser accepts, whose
    N rows are all well-formed (a title link whose href the URL library
    accepts), is parsed without error into exactly N records.  Pages are
    those of the model: their text has code points below 256. *)
Theorem parse_shelf_titles
  (urlparse_path : string -> option string)
  (urljoin : string -> string -> option string)
  (BeautifulSoup : string -> option node)
  (html : string) (shelf_url : option string) :
  (forall books,
      parse_shelf urlparse_path urljoin BeautifulSoup html shelf_url = Ok books ->
      exists soup,
        BeautifulSoup html = Some soup
        /\ map title_of books
           = map (fun row => Some (JStr (row_title row)))
                 (filter has_title_link (entry_rows soup))
        /\ List.length books
           = List.length (filter has_title_link (entry_rows soup)))
  /\ (forall soup,
         BeautifulSoup html = Some soup ->
         forallb (well_formed urlparse_path urljoin shelf_url) (entry_rows soup)
         = true ->
         exists books,
           parse_shelf urlparse_path urljoin BeautifulSoup html shelf_url
           = Ok books
           /\ List.length books = List.length (entry_rows soup)
           /\ map title_of books
              = map (fun row => Some (JStr (row_title row))) (entry_rows soup)).
Proof.
  split.
  - intros books H0. destruct (parse_shelf_ok _ _ _ _ _ _ H0) as (soup & B & H).
    exists soup. split; [exact B|].
    rewrite parse_rows_result in H.
    destruct (existsb _ _); [discriminate|]. injection H as <-.
    fold (page_records soup).
    pose proof (page_records_titles soup) as T.
    split; [exact T|].
    rewrite <- (length_map title_of), T. apply length_map.
  - intros soup B W.
    destruct (all_well_formed _ _ _ _ W) as (E & F).
    exists (page_records soup).
    rewrite (parse_shelf_tree _ _ _ _ _ _ B), parse_rows_result, E.
    split; [reflexivity|].
    pose proof (page_records_titles soup) as T. rewrite F in T.
    split; [|exact T].
    rewrite <- (length_map title_of), T. apply length_map.
Qed.

Lemma parse_shelf_titles_witness :
  (exists books,
      parse_shelf Plain.urlparse_path Plain.urljoin
                  (Sample.builds (Sample.page_of (repeat Sample.full_row 3)))
                  Sample.markup (Some Sample.shelf) = Ok books
      /\ List.length books = 3%nat
      /\ map title_of books
         = repeat (Some (JStr "A Letter Concerning Toleration")) 3)
  /\ (exists soup,
         Sample.builds
           (Sample.page_of [Sample.full_row; Sample.header_row;
                            Sample.textless_title_row])
           Sample.markup = Some soup
         /\ map title_of
                [[("source", JStr "OTHER");
                  ("title", JStr "A Letter Concerning Toleration");
                  ("authors", JStr "Locke, John"); ("pageCount", JInt 1352);
                  ("coverUrl", JStr "https://i.gr-assets.com/364549.jpg")];
                 [("source", JStr "OTHER"); ("title", JStr "");
                  ("authors", JNull); ("pageCount", JNull);
                  ("coverUrl", JNull)]]
            = map (fun row => Some (JStr (row_title row)))
                  (filter has_title_link (entry_rows soup))
         /\ 2%nat = List.length (filter has_title_link (entry_rows soup))).
Proof.
  split.
  - exact (proj2 (parse_shelf_titles Plain.urlparse_path Plain.urljoin
                    (Sample.builds (Sample.page_of (repeat Sample.full_row 3)))
                    Sample.markup (Some Sample.shelf))
                 _ eq_refl eq_refl).
  - exact (proj1 (parse_shelf_titles Plain.urlparse_path Plain.urljoin
                    (Sample.builds
                       (Sample.page_of [Sample.full_row; Sample.header_row;
                                        Sample.textless_title_row]))
                    Sample.markup None)
                 _ ltac:(vm_compute; reflexivity)).
Defined.

(** X12: on the pages of the model (text with code points below 256)
    [parse_shelf] fails in two ways only: with [ParserRejectedMarkup] when
    the parser refuses the markup, and with [ValueError] exactly when some
    row has a title link whose href the URL library refuses; otherwise its
    records are those of the rows with a title link, in page order, and
    they depend on the tree alone: neither the shelf URL nor the URL
    library can change a record. *)
Theorem parse_shelf_result
  (urlparse_path : string -> option string)
  (urljoin : string -> string -> option string)
  (BeautifulSoup : string -> option node)
  (html : string) (shelf_url : option string) :
  parse_shelf urlparse_path urljoin BeautifulSoup html shelf_url
  = match BeautifulSoup html with
    | None => Raise ParserRejectedMarkup
    | Some soup =>
        if existsb (bad_href urlparse_path urljoin shelf_url) (entry_rows soup)
        then Raise ValueError
        else Ok (page_records soup)
    end.
Proof.
  unfold parse_shelf, page_records, entry_rows.
  destruct (BeautifulSoup html) as [soup|]; [|reflexivity].
  cbn [or_raise bind]. now rewrite parse_rows_result.
Qed.

(** X13: Two parses of a page that both succeed return the same records,
    whatever shelf URL each was given and whatever the URL library did. *)
Theorem parse_shelf_same_records
  (urlparse_path urlparse_path' : string -> option string)
  (urljoin urljoin' : string -> string -> option string)
  (BeautifulSoup : string -> option node) (html : string)
  (shelf_url shelf_url' : option string)
  (books books' : list book) :
  parse_shelf urlparse_path urljoin BeautifulSoup html shelf_url = Ok books ->
  parse_shelf urlparse_path' urljoin' BeautifulSoup html shelf_url'
  = Ok books' ->
  books = books'.
Proof.
  unfold parse_shelf.
  destruct (BeautifulSoup html) as [soup|]; [|discriminate].
  cbn [or_raise bind]. rewrite !parse_rows_result.
  destruct (existsb _ _); [discriminate|].
  destruct (existsb _ _); [discriminate|].
  now intros [= <-] [= <-].
Qed.

Lemma parse_shelf_same_records_witness :
  match parse_shelf Plain.urlparse_path Plain.urljoin
          (Sample.builds (Sample.page_of [Sample.full_row; Sample.header_row]))
          Sample.markup (Some Sample.shelf) with
  | Ok books => books
  | Raise _ => nil
  end
  = match parse_shelf (fun _ => Some "") (fun _ _ => Some "")
            (Sample.builds (Sample.page_of [Sample.full_row; Sample.header_row]))
            Sample.markup None with
    | Ok books => books
    | Raise _ => nil
    end.
Proof.
  apply (parse_shelf_same_records Plain.urlparse_path (fun _ => Some "")
           Plain.urljoin (fun _ _ => Some "")
           (Sample.builds (Sample.page_of [Sample.full_row; Sample.header_row]))
           Sample.markup (Some Sample.shelf) None);
    vm_compute; reflexivity.
Defined.

(** ** The values in a record *)

Lemma extract_int_nonneg (text : option string) (n : Z) :
  extract_int_from_text text = Some n -> 0 <= n.
Proof.
  unfold extract_int_from_text.
  destruct text as [t|]; [|discriminate].
  destruct (PyStr.truthy t); [|discriminate]. cbn [negb].
  pose proof (findall_digits_runs (PyStr.remove_char "," t)) as F.
  destruct (Re.findall_digits _) as [|run runs]; [discriminate|].
  inversion F as [|? ? (T & D) _]; subst.
  rewrite (int_all_decimal _ T D).
  destruct (_ <? _); [discriminate|]. intros [= <-].
  apply (decimal_value_nonneg _ D). lia.
Qed.

Lemma or_None_text_ok (s : string) : text_ok (Some (json_str (PyStr.or_None s))).
Proof.
  destruct s as [|c s]; cbn; [exact I|discriminate].
Qed.

Lemma row_cover_url_ok (row : node) :
  text_ok (Some (json_str (row_cover_url row))).
Proof.
  unfold row_cover_url.
  destruct (find row "td" _) as [td|]; [|exact I].
  destruct (find td "img" _) as [img|]; [|exact I].
  destruct (get img "src") as [src|]; [apply or_None_text_ok|exact I].
Qed.

Lemma row_page_count_ok (row : node) :
  count_ok (Some (json_int (row_page_count row))).
Proof.
  unfold row_page_count.
  destruct (find row "td" _) as [td|]; [|exact I].
  destruct (extract_int_from_text _) as [n|] eqn:E; [|exact I].
  exact (extract_int_nonneg _ _ E).
Qed.

Lemma page_records_Forall (P : book -> Prop) (soup : node) :
  (forall row b, row_record row = Some b -> P b) ->
  Forall P (page_records soup).
Proof.
  intros H. unfold page_records.
  induction (entry_rows soup) as [|row rows IH]; [constructor|].
  cbn [flat_map]. destruct (row_record row) as [b|] eqn:R; [|exact IH].
  constructor; [exact (H _ _ R)|exact IH].
Qed.

Lemma parse_shelf_page_records
  (urlparse_path : string -> option string)
  (urljoin : string -> string -> option string)
  (BeautifulSoup : string -> option node)
  (html : string) (shelf_url : option string) (books : list book) :
  parse_shelf urlparse_path urljoin BeautifulSoup html shelf_url = Ok books ->
  exists soup, BeautifulSoup html = Some soup /\ books = page_records soup.
Proof.
  intros H0. destruct (parse_shelf_ok _ _ _ _ _ _ H0) as (soup & B & H).
  exists soup. split; [exact B|].
  rewrite parse_rows_result in H.
  destruct (existsb _ _); [discriminate|]. now injection H as <-.
Qed.

(** X14: In every record the page count is null or a non-negative integer,
    never a negative number, and the cover URL is null or a non-empty
    string, never the empty string. *)
Theorem parse_shelf_field_values
  (urlparse_path : string -> option string)
  (urljoin : string -> string -> option string)
  (BeautifulSoup : string -> option node)
  (html : string) (shelf_url : option string) (books : list book) :
  parse_shelf urlparse_path urljoin BeautifulSoup html shelf_url = Ok books ->
  Forall (fun b => count_ok (Dict.get b "pageCount")
                   /\ text_ok (Dict.get b "coverUrl"))
         books.
Proof.
  intros H. destruct (parse_shelf_page_records _ _ _ _ _ _ H) as (soup & _ & ->).
  apply page_records_Forall. intros row b. unfold row_record.
  destruct (title_link row) as [link|]; [|discriminate].
  intros [= <-]. split.
  - exact (row_page_count_ok row).
  - exact (row_cover_url_ok row).
Qed.

Lemma parse_shelf_field_values_witness :
  Forall (fun b => count_ok (Dict.get b "pageCount")
                   /\ text_ok (Dict.get b "coverUrl"))
         (page_records (Sample.page_of [Sample.full_row; Sample.title_only_row])).
Proof.
  apply (parse_shelf_field_values Plain.urlparse_path Plain.urljoin
           (Sample.builds
              (Sample.page_of [Sample.full_row; Sample.title_only_row]))
           Sample.markup None).
  vm_compute. reflexivity.
Defined.

(** ** Stripped text *)

Lemma lstrip_head (sp : ascii -> bool) (s : string) :
  head_not sp (PyStr.lstrip_by sp s) = true.
Proof.
  induction s as [|c s IH]; [reflexivity|]. cbn [PyStr.lstrip_by].
  destruct (sp c) eqn:C; [exact IH|]. cbn [head_not]. now rewrite C.
Qed.

Lemma rstrip_last (sp : ascii -> bool) (s : string) :
  last_not sp (PyStr.rstrip_by sp s) = true.
Proof.
  induction s as [|c s IH]; [reflexivity|]. cbn [PyStr.rstrip_by].
  destruct (PyStr.rstrip_by sp s) as [|d r].
  - destruct (sp c) eqn:C; [reflexivity|]. cbn [last_not]. now rewrite C.
  - exact IH.
Qed.

Lemma rstrip_head (sp : ascii -> bool) (s : string) :
  head_not sp s = true -> head_not sp (PyStr.rstrip_by sp s) = true.
Proof.
  destruct s as [|c s]; [reflexivity|]. cbn [head_not PyStr.rstrip_by].
  intros H. destruct (PyStr.rstrip_by sp s).
  - apply negb_true_iff in H. rewrite H. cbn [head_not]. now rewrite H.
  - exact H.
Qed.

(** A string is trimmed when it neither begins nor ends with white space. *)
Lemma strip_trimmed (s : string) :
  head_not PyStr.isspace s = true -> last_not PyStr.isspace s = true ->
  PyStr.strip s = s.
Proof.
  intros H L. unfold PyStr.strip.
  now rewrite (lstrip_head_not _ _ H), (rstrip_last_not _ _ L).
Qed.

Lemma strip_ends (s : string) :
  head_not PyStr.isspace (PyStr.strip s) = true
  /\ last_not PyStr.isspace (PyStr.strip s) = true.
Proof.
  unfold PyStr.strip. split.
  - apply rstrip_head, lstrip_head.
  - apply rstrip_last.
Qed.

Lemma head_not_app (p : ascii -> bool) (a b : string) :
  PyStr.truthy a = true -> head_not p (a ++ b) = head_not p a.
Proof.
  now destruct a.
Qed.

Lemma last_not_app (p : ascii -> bool) (a b : string) :
  PyStr.truthy b = true -> last_not p (a ++ b) = last_not p b.
Proof.
  intros T. induction a as [|c a IH]; [reflexivity|].
  cbn [append last_not]. rewrite IH.
  destruct (a ++ b) eqn:E; [|reflexivity].
  destruct a; [|discriminate]. cbn in E. subst b. discriminate.
Qed.

Lemma truthy_app_r (a b : string) :
  PyStr.truthy b = true -> PyStr.truthy (a ++ b) = true.
Proof.
  now destruct a, b.
Qed.

(** Joining trimmed, non-empty pieces gives a trimmed string. *)
Lemma join_ends (sep : string) (pieces : list string) :
  Forall (fun s => PyStr.truthy s = true
                   /\ head_not PyStr.isspace s = true
                   /\ last_not PyStr.isspace s = true) pieces ->
  head_not PyStr.isspace (PyStr.join sep pieces) = true
  /\ last_not PyStr.isspace (PyStr.join sep pieces) = true
  /\ (pieces <> nil -> PyStr.truthy (PyStr.join sep pieces) = true).
Proof.
  induction 1 as [|p pieces (T & H & L) F (IHh & IHl & IHt)].
  - repeat split. now intros [].
  - destruct pieces as [|q pieces].
    + cbn [PyStr.join]. split; [exact H|]. split; [exact L|]. now intros _.
    + change (PyStr.join sep (p :: q :: pieces))
        with (p ++ sep ++ PyStr.join sep (q :: pieces)).
      assert (Tj : PyStr.truthy (PyStr.join sep (q :: pieces)) = true)
        by (apply IHt; discriminate).
      split; [now rewrite head_not_app|].
      split.
      * rewrite last_not_app by now apply truthy_app_r.
        now rewrite last_not_app.
      * intros _. now destruct p.
Qed.

Lemma stripped_strings_ends (n : node) :
  Forall (fun s => PyStr.truthy s = true
                   /\ head_not PyStr.isspace s = true
                   /\ last_not PyStr.isspace s = true)
         (stripped_strings n).
Proof.
  unfold stripped_strings.
  induction (descendants n) as [|d ds IH]; [constructor|].
  cbn [flat_map]. apply Forall_app. split; [|exact IH].
  destruct d as [s| |]; try constructor.
  destruct (PyStr.truthy (PyStr.strip s)) eqn:T; constructor; [|constructor].
  split; [exact T|apply strip_ends].
Qed.

(** [get_text(sep, strip=True)] never begins or ends with white space:
    stripping it again changes nothing. *)
Lemma get_text_trimmed (sep : string) (n : node) :
  PyStr.strip (get_text sep n) = get_text sep n.
Proof.
  unfold get_text.
  destruct (join_ends sep _ (stripped_strings_ends n)) as (H & L & _).
  now apply strip_trimmed.
Qed.

(** X15: The title of every record is trimmed: it has no white space at either
    end, so the strip of the key hash leaves it as it is. *)
Theorem parse_shelf_title_trimmed
  (urlparse_path : string -> option string)
  (urljoin : string -> string -> option string)
  (BeautifulSoup : string -> option node)
  (html : string) (shelf_url : option string) (books : list book) :
  parse_shelf urlparse_path urljoin BeautifulSoup html shelf_url = Ok books ->
  Forall (fun b => exists t, Dict.get b "title" = Some (JStr t)
                             /\ PyStr.strip t = t)
         books.
Proof.
  intros H. destruct (parse_shelf_page_records _ _ _ _ _ _ H) as (soup & _ & ->).
  apply page_records_Forall. intros row b. unfold row_record.
  destruct (title_link row) as [link|]; [|discriminate].
  intros [= <-]. exists (get_text "" link).
  split; [reflexivity|apply get_text_trimmed].
Qed.

Lemma parse_shelf_title_trimmed_witness :
  Forall (fun b => exists t, Dict.get b "title" = Some (JStr t)
                             /\ PyStr.strip t = t)
         (page_records (Sample.page_of [Sample.full_row])).
Proof.
  apply (parse_shelf_title_trimmed Plain.urlparse_path Plain.urljoin
           (Sample.builds (Sample.page_of [Sample.full_row]))
           Sample.markup (Some Sample.shelf)).
  vm_compute. reflexivity.
Defined.

(** ** Runs of the pagination loop *)

Section Runs.

Variable urlparse_path : string -> option string.
Variable urljoin : string -> string -> option string.
Variable urlparse_query : string -> option string.
Variable replace_query : string -> string -> string.
Variable parse_qsl : string -> list (string * string).
Variable urlencode : list (string * string) -> string.
Variable load_html : string -> option string.
Variable BeautifulSoup : string -> option node.

Local Abbreviation body :=
  (loop_body urlparse_path urljoin urlparse_query replace_query parse_qsl
             urlencode load_html BeautifulSoup).
Local Abbreviation loop :=
  (main_loop urlparse_path urljoin urlparse_query replace_query parse_qsl
             urlencode load_html BeautifulSoup).
Local Abbreviation records :=
  (fetch_page urlparse_path urljoin urlparse_query replace_query parse_qsl
              urlencode load_html BeautifulSoup).
Local Abbreviation url_of := (page_url replace_query parse_qsl urlencode).

Variable resolved query : string.
Hypothesis query_of_resolved : urlparse_query resolved = Some query.

Local Abbreviation per_page := (PyStr.int (per_page_text (parse_qsl query))).

(** A turn on a page that was fetched and parsed: it appends the records
    and goes on exactly after a full page. *)
Lemma loop_body_page (st : loop_state) (recs : list book) :
  records resolved (page st) = Ok recs ->
  body resolved st
  = Ok (if full_page per_page recs then Continue else Break,
        {| page := if full_page per_page recs then page st + 1 else page st;
           all_books := (all_books st ++ recs)%list;
           fetched := (fetched st ++ [url_of resolved query (page st)])%list |}).
Proof.
  intros R.
  rewrite (loop_body_turn _ _ _ _ _ _ _ _ _ _ query_of_resolved), R.
  unfold full_page.
  destruct recs as [|r recs]; [now rewrite app_nil_r|].
  destruct per_page as [n|]; [|reflexivity].
  now destruct (_ <? _).
Qed.

Lemma loop_body_raise (st : loop_state) (e : exn) :
  records resolved (page st) = Raise e -> body resolved st = Raise e.
Proof.
  intros R.
  now rewrite (loop_body_turn _ _ _ _ _ _ _ _ _ _ query_of_resolved), R.
Qed.

(** X18: What a finished run has done: it fetched the pages [page st],
    [page st + 1], ... one after the other, every one of them but the last
    was full, the last was not, and the books are those of all these
    pages in order, after the books it started with. *)
Theorem main_loop_accumulates (fuel : nat) :
  forall st st',
    loop fuel resolved st = Some (Ok st') ->
    exists front last,
      Forall2 (fun p recs => records resolved p = Ok recs)
              (pages_from (page st) (S (List.length front)))
              (front ++ [last])%list
      /\ Forall (fun recs => full_page per_page recs = true) front
      /\ full_page per_page last = false
      /\ all_books st' = (all_books st ++ List.concat front ++ last)%list
      /\ fetched st'
         = (fetched st
            ++ map (url_of resolved query)
                   (pages_from (page st) (S (List.length front))))%list
      /\ page st' = page st + Z.of_nat (List.length front).
Proof.
  induction fuel as [|fuel IH]; intros st st' H; [discriminate|].
  cbn [main_loop] in H.
  destruct (records resolved (page st)) as [recs|e] eqn:R;
    [|now rewrite (loop_body_raise _ _ R) in H].
  rewrite (loop_body_page _ _ R) in H.
  destruct (full_page per_page recs) eqn:F.
  - destruct (IH _ _ H) as (front & last & P & FF & FL & B & L & N).
    cbn [page all_books fetched] in P, B, L, N.
    exists (recs :: front), last. cbn [List.length pages_from app List.concat map].
    split; [now constructor|]. split; [now constructor|].
    split; [exact FL|]. split; [now rewrite B, <- !app_assoc|].
    split; [now rewrite L, <- app_assoc|]. lia.
  - injection H as <-. exists nil, recs.
    cbn [List.length pages_from app List.concat map page all_books fetched].
    split; [repeat constructor; exact R|]. split; [constructor|].
    split; [exact F|]. repeat split. lia.
Qed.

(** X19: A site that answers every page with a full page keeps the loop
    running for ever: no amount of fuel ends it. *)
Theorem main_loop_never_ends :
  (forall p, exists recs,
      records resolved p = Ok recs /\ full_page per_page recs = true) ->
  forall fuel st, loop fuel resolved st = None.
Proof.
  intros A fuel.
  induction fuel as [|fuel IH]; intros st; [reflexivity|].
  destruct (A (page st)) as (recs & R & F).
  cbn [main_loop]. rewrite (loop_body_page _ _ R), F. apply IH.
Qed.

(** X20: A page that cannot be fetched or parsed ends the run with its error,
    and the books of the full pages before it are not returned. *)
Theorem main_loop_aborts (front : list (list book)) (e : exn) :
  forall st extra,
    Forall2 (fun p recs => records resolved p = Ok recs)
            (pages_from (page st) (List.length front)) front ->
    Forall (fun recs => full_page per_page recs = true) front ->
    records resolved (page st + Z.of_nat (List.length front)) = Raise e ->
    loop (S (List.length front) + extra) resolved st = Some (Raise e).
Proof.
  induction front as [|recs front IH]; intros st extra P F E.
  - cbn [List.length Z.of_nat] in E. rewrite Z.add_0_r in E.
    cbn [List.length Nat.add main_loop]. now rewrite (loop_body_raise _ _ E).
  - cbn [List.length pages_from] in P. inversion P as [|? ? ? ? R P']; subst.
    inversion F as [|? ? Fr F']; subst.
    change (S (List.length (recs :: front)) + extra)%nat
      with (S (S (List.length front) + extra)).
    cbn [main_loop]. rewrite (loop_body_page _ _ R), Fr.
    apply IH; cbn [page]; try assumption.
    rewrite <- E. f_equal. cbn [List.length]. lia.
Qed.

(** X21: With a per_page that is zero or negative no page is short: the loop
    goes on after every page that has a record, and only an empty page
    ends it. *)
Theorem loop_body_per_page_not_positive (n : Z) (st : loop_state)
        (recs : list book) :
  per_page = Some n -> n <= 0 ->
  records resolved (page st) = Ok recs ->
  body resolved st
  = Ok (match recs with nil => Break | _ => Continue end,
        {| page := match recs with nil => page st | _ => page st + 1 end;
           all_books := (all_books st ++ recs)%list;
           fetched := (fetched st ++ [url_of resolved query (page st)])%list |}).
Proof.
  intros P N R. rewrite (loop_body_page _ _ R), P.
  destruct recs as [|r recs]; [reflexivity|].
  unfold full_page.
  assert (L : (Z.of_nat (List.length (r :: recs)) <? n) = false)
    by (apply Z.ltb_ge; lia).
  now rewrite L.
Qed.

End Runs.

Lemma plain_never_refused (shelf_url : option string) (row : node) :
  bad_href Plain.urlparse_path Plain.urljoin shelf_url row = false.
Proof.
  unfold bad_href, has_title_link, well_formed, href_parses.
  destruct (title_link row) as [link|]; [|reflexivity].
  cbn [andb Plain.urljoin Plain.urlparse_path is_some].
  destruct (PyStr.truthy (PyStr.or_empty shelf_url) && _);
    now destruct (PyStr.truthy (getitem link "href")).
Qed.

Lemma plain_parse_shelf (BeautifulSoup : string -> option node)
      (html : string) (soup : node) (shelf_url : option string) :
  BeautifulSoup html = Some soup ->
  parse_shelf Plain.urlparse_path Plain.urljoin BeautifulSoup html shelf_url
  = Ok (page_records soup).
Proof.
  intros B. rewrite (parse_shelf_tree _ _ _ _ _ _ B).
  unfold page_records, entry_rows. rewrite parse_rows_result.
  assert (E : existsb (bad_href Plain.urlparse_path Plain.urljoin shelf_url)
                      (find_all soup "tr" (has_class "bookalike")) = false).
  { induction (find_all soup "tr" _) as [|row rows IH]; [reflexivity|].
    cbn [existsb]. now rewrite plain_never_refused. }
  now rewrite E.
Qed.

Lemma main_loop_accumulates_witness :
  exists front last,
    Forall2 (fun p recs =>
               fetch_page Plain.urlparse_path Plain.urljoin
                 Plain.urlparse_query Plain.replace_query Plain.parse_qsl
                 Plain.urlencode Sample.load_html Sample.BeautifulSoup
                 Sample.shelf p = Ok recs)
            (pages_from 1 (S (List.length front))) (front ++ [last])%list
    /\ Forall (fun recs => full_page (Some 10) recs = true) front
    /\ full_page (Some 10) last = false
    /\ all_books SampleRuns.finished = (List.concat front ++ last)%list
    /\ fetched SampleRuns.finished
       = map (page_url Plain.replace_query Plain.parse_qsl Plain.urlencode
                       Sample.shelf "shelf=read")
             (pages_from 1 (S (List.length front)))
    /\ page SampleRuns.finished = 1 + Z.of_nat (List.length front).
Proof.
  exact (main_loop_accumulates
           Plain.urlparse_path Plain.urljoin Plain.urlparse_query
           Plain.replace_query Plain.parse_qsl Plain.urlencode
           Sample.load_html Sample.BeautifulSoup
           Sample.shelf "shelf=read" eq_refl 3 loop_start SampleRuns.finished
           ltac:(vm_compute; reflexivity)).
Defined.

Lemma main_loop_never_ends_witness :
  main_loop Plain.urlparse_path Plain.urljoin Plain.urlparse_query
            Plain.replace_query Plain.parse_qsl Plain.urlencode
            Sample.load_html Sample.twelve_rows 1000 Sample.shelf loop_start
  = None.
Proof.
  refine (main_loop_never_ends
            Plain.urlparse_path Plain.urljoin Plain.urlparse_query
            Plain.replace_query Plain.parse_qsl Plain.urlencode
            Sample.load_html Sample.twelve_rows
            Sample.shelf "shelf=read" eq_refl _ 1000%nat loop_start).
  intros p. eexists. split.
  - unfold fetch_page, page_request, Sample.load_html.
    change (Plain.urlparse_query Sample.shelf) with (Some "shelf=read").
    cbn [or_raise bind fst snd]. now apply plain_parse_shelf.
  - vm_compute. reflexivity.
Defined.

Lemma main_loop_aborts_witness :
  main_loop Plain.urlparse_path Plain.urljoin Plain.urlparse_query
            Plain.replace_query Plain.parse_qsl Plain.urlencode
            SampleRuns.failing_load_html Sample.BeautifulSoup
            3 Sample.shelf loop_start
  = Some (Raise LoadError).
Proof.
  refine (main_loop_aborts
            Plain.urlparse_path Plain.urljoin Plain.urlparse_query
            Plain.replace_query Plain.parse_qsl Plain.urlencode
            SampleRuns.failing_load_html Sample.BeautifulSoup
            Sample.shelf "shelf=read" eq_refl
            [SampleRuns.records SampleRuns.failing_load_html
               Sample.BeautifulSoup Sample.shelf 1;
             SampleRuns.records SampleRuns.failing_load_html
               Sample.BeautifulSoup Sample.shelf 2]%list
            LoadError loop_start 0%nat _ _ _).
  - repeat constructor; vm_compute; reflexivity.
  - repeat constructor; vm_compute; reflexivity.
  - vm_compute. reflexivity.
Defined.

Lemma loop_body_per_page_not_positive_witness :
  exists st,
    loop_body Plain.urlparse_path Plain.urljoin Plain.urlparse_query
              Plain.replace_query Plain.parse_qsl Plain.urlencode
              Sample.load_html Sample.twelve_rows
              SampleRuns.zero_shelf loop_start
    = Ok (Continue, st)
    /\ page st = 2 /\ List.length (all_books st) = 12%nat.
Proof.
  eexists. split.
  - exact (loop_body_per_page_not_positive
             Plain.urlparse_path Plain.urljoin Plain.urlparse_query
             Plain.replace_query Plain.parse_qsl Plain.urlencode
             Sample.load_html Sample.twelve_rows
             SampleRuns.zero_shelf "shelf=read&per_page=0" eq_refl
             0 loop_start
             (SampleRuns.records Sample.load_html Sample.twelve_rows
                SampleRuns.zero_shelf 1)
             eq_refl ltac:(lia) ltac:(vm_compute; reflexivity)).
  - split; [reflexivity|vm_compute; reflexivity].
Defined.

(** ** Rebuilding a rebuilt query *)

Lemma set_fresh {V : Type} (d : Dict.t (V := V)) (k : string) (v : V) :
  Dict.get d k = None -> Dict.set d k v = (d ++ [(k, v)])%list.
Proof.
  induction d as [|[k0 v0] d IH]; cbn [Dict.get Dict.set app]; [reflexivity|].
  destruct (String.eqb k0 k); [discriminate|]. intros H. now rewrite IH.
Qed.

Lemma set_set {V : Type} (d : Dict.t (V := V)) (k : string) (v w : V) :
  Dict.set (Dict.set d k v) k w = Dict.set d k w.
Proof.
  induction d as [|[k0 v0] d IH]; cbn [Dict.set].
  - now rewrite String.eqb_refl.
  - destruct (String.eqb k0 k) eqn:E; cbn [Dict.set]; rewrite E;
      [reflexivity|now rewrite IH].
Qed.

Lemma keys_get_None {V : Type} (d : Dict.t (V := V)) (k : string) :
  ~ In k (Dict.keys d) -> Dict.get d k = None.
Proof.
  unfold Dict.keys.
  induction d as [|[k0 v0] d IH]; cbn [Dict.get map In fst]; [reflexivity|].
  intros H. destruct (String.eqb k0 k) eqn:E.
  - apply String.eqb_eq in E. tauto.
  - apply IH. tauto.
Qed.

(** [dict(d.items())] is [d]. *)
Lemma of_pairs_items (d : Dict.t (V := string)) :
  NoDup (Dict.keys d) -> Dict.of_pairs d = d.
Proof.
  unfold Dict.of_pairs.
  enough (G : forall acc : Dict.t (V := string),
             NoDup (Dict.keys (acc ++ d)%list) ->
             fold_left (fun a kv => Dict.set a (fst kv) (snd kv)) d acc
             = (acc ++ d)%list) by exact (G nil).
  induction d as [|[k v] d IH]; intros acc N; cbn [fold_left fst snd].
  - now rewrite app_nil_r.
  - assert (F : Dict.get acc k = None).
    { apply keys_get_None. unfold Dict.keys in *.
      rewrite map_app in N. cbn [map fst] in N.
      apply NoDup_remove_2 in N. intros I. apply N, in_or_app. now left. }
    rewrite (set_fresh _ _ _ F), IH; rewrite <- app_assoc; [reflexivity|exact N].
Qed.

(** X22: Rebuilding the query of an already rebuilt page URL for another page
    gives the query of that page: only the page number changes, and
    nothing is added a second time. *)
Theorem page_qs_rebuilt (pairs : list (string * string)) (p q : Z) :
  page_qs (page_qs pairs p) q = page_qs pairs q.
Proof.
  unfold page_qs at 1.
  rewrite (of_pairs_items _ (page_qs_NoDup pairs p)).
  unfold Dict.setdefault. rewrite page_qs_get.
  cbn [String.eqb Ascii.eqb Bool.eqb].
  unfold page_qs. apply set_set.
Qed.

(** ** Authors and the digest input of a row *)

(** X16: With at least one hyperlink in the author cell the authors are never
    null; without any, they are null or a non-empty trimmed string. *)
Theorem row_authors_shape (row author_td : node) :
  find row "td" (has_class "field author") = Some author_td ->
  match find_all author_td "a" any with
  | nil =>
      match row_authors row with
      | None => True
      | Some s => s <> "" /\ PyStr.strip s = s
      end
  | links =>
      row_authors row = Some (PyStr.join ", " (map (get_text "") links))
  end.
Proof.
  intros F. unfold row_authors. rewrite F.
  destruct (find_all author_td "a" any) as [|l links]; [|reflexivity].
  pose proof (get_text_trimmed "" author_td) as T.
  unfold PyStr.or_None.
  destruct (get_text "" author_td) as [|c s]; [exact I|].
  cbn [PyStr.truthy]. split; [discriminate|exact T].
Qed.

Lemma row_authors_shape_witness :
  row_authors Sample.full_row = Some "Locke, John"
  /\ row_authors Sample.blank_author_row = None.
Proof.
  split.
  - exact (row_authors_shape Sample.full_row _ eq_refl).
  - pose proof (row_authors_shape Sample.blank_author_row _ eq_refl) as H.
    cbn in H. reflexivity.
Defined.

Lemma decimal_not_isspace (c : ascii) :
  PyStr.isdecimal c = true -> PyStr.isspace c = false.
Proof.
  by_cases_on_char c.
Qed.

Lemma strip_all_decimal (s : string) :
  PyStr.all_chars PyStr.isdecimal s = true -> PyStr.strip s = s.
Proof.
  intros H. apply strip_trimmed.
  - destruct s as [|c s]; [reflexivity|]. cbn [PyStr.all_chars head_not] in *.
    apply andb_true_iff in H as [H _]. now rewrite (decimal_not_isspace _ H).
  - induction s as [|c s IH]; [reflexivity|]. cbn [PyStr.all_chars last_not] in *.
    apply andb_true_iff in H as [Hc H].
    destruct s as [|d s]; [now rewrite (decimal_not_isspace _ Hc)|now apply IH].
Qed.

(** X17: The key hash computed for a row is the digest of
    [OTHER|<id>|<title>|<authors>], where the id is the digits of the
    external id (nothing when there is none), the title goes in as it is,
    and only the authors are stripped. *)
Theorem row_key_hash_input
  (urlparse_path : string -> option string)
  (urljoin : string -> string -> option string)
  (shelf_url : option string) (row : node) (v : row_locals) :
  row_values urlparse_path urljoin shelf_url row = Ok (Some v) ->
  key_hash v
  = Sha256.hexdigest
      (Utf8.encode ("OTHER" ++ "|" ++ PyStr.or_empty (external_id v)
                    ++ "|" ++ title v
                    ++ "|" ++ PyStr.strip (PyStr.or_empty (authors v)))).
Proof.
  intros V.
  assert (I : PyStr.strip (PyStr.or_empty (external_id v))
              = PyStr.or_empty (external_id v)).
  { revert V. unfold row_values.
    destruct (find row "td" _) as [td|]; [|discriminate].
    destruct (find td "a" _) as [link|]; [|discriminate].
    destruct (if _ : bool then _ else _) as [u|e]; [|discriminate].
    cbn [bind].
    destruct (extract_external_id _ _) as [x|e] eqn:X; [|discriminate].
    cbn [bind]. intros [= <-]. cbn [external_id].
    destruct x as [id|]; [|reflexivity].
    revert X. unfold extract_external_id.
    destruct (PyStr.truthy _); cbn [negb]; [|discriminate].
    destruct (urlparse_path _) as [path|]; [|discriminate].
    cbn [or_raise bind]. intros [= X].
    destruct (search_book_show_found _ _ X) as (T & D & _).
    unfold PyStr.or_empty. rewrite T. now apply strip_all_decimal. }
  destruct (row_values_record _ _ _ _ _ V)
    as ((link & _ & T) & _ & _ & _ & _ & _ & K).
  rewrite K. unfold compute_key_hash.
  cbn [map PyStr.join PyStr.or_empty PyStr.truthy].
  rewrite I.
  assert (Tt : PyStr.strip (if PyStr.truthy (title v) then title v else "")
               = title v).
  { rewrite T. destruct (get_text "" link) eqn:G; [reflexivity|].
    cbn [PyStr.truthy]. rewrite <- G. apply get_text_trimmed. }
  rewrite Tt. reflexivity.
Qed.

Lemma row_key_hash_input_witness :
  "d418691efbb66bba5c58ea29127e5ce2a9d9349e7b8e30a0404af8ed0636a3d0"
  = Sha256.hexdigest
      (Utf8.encode "OTHER|364549|A Letter Concerning Toleration|Locke, John").
Proof.
  exact (row_key_hash_input Plain.urlparse_path Plain.urljoin
           (Some Sample.shelf) Sample.full_row
           {| title := "A Letter Concerning Toleration";
              book_href := "/book/show/364549.A_Letter_Concerning_Toleration";
              book_url := "https://www.goodreads.com/book/show/364549.A_Letter_Concerning_Toleration";
              external_id := Some "364549";
              authors := Some "Locke, John";
              cover_url := Some "https://i.gr-assets.com/364549.jpg";
              page_count := Some 1352;
              published_year := Some 2025;
              source := "OTHER";
              key_hash := "d418691efbb66bba5c58ea29127e5ce2a9d9349e7b8e30a0404af8ed0636a3d0" |}
           ltac:(vm_compute; reflexivity)).
Defined.

(** ** A number too long for [int] *)

Lemma remove_comma_decimal (t : string) :
  PyStr.all_chars PyStr.isdecimal t = true -> PyStr.remove_char "," t = t.
Proof.
  induction t as [|c t IH]; [reflexivity|].
  cbn [PyStr.all_chars PyStr.remove_char]. intros H.
  apply andb_true_iff in H as [Hc H]. rewrite (IH H).
  destruct (Ascii.eqb c ",") eqn:E; [|reflexivity].
  apply Ascii.eqb_eq in E. subst c. discriminate.
Qed.

(** X9: A cell whose digits are more than [int] accepts (4300 by default)
    has no page count: the [ValueError] of [int] is caught and the result
    is [None]. *)
Theorem extract_int_too_long (t : string) :
  PyStr.all_chars PyStr.isdecimal t = true ->
  PyStr.int_max_str_digits < Z.of_nat (String.length t) ->
  extract_int_from_text (Some t) = None.
Proof.
  intros D L.
  assert (T : PyStr.truthy t = true)
    by (destruct t; [cbn in L; unfold PyStr.int_max_str_digits in L; lia
                    |reflexivity]).
  unfold extract_int_from_text. rewrite T. cbn [negb].
  rewrite (remove_comma_decimal _ D), (findall_digits_all_decimal _ T D).
  rewrite (int_all_decimal _ T D).
  apply Z.ltb_lt in L. now rewrite L.
Qed.

Lemma extract_int_too_long_witness :
  extract_int_from_text (Some (repeat_char "7" 4301)) = None.
Proof.
  apply extract_int_too_long; vm_compute; reflexivity.
Defined.
